(** * Buckaroo MCP tool: the server lifecycle supervisor

    A shallow embedding of [src/buckaroo_mcp_tool.py].  The Python code
    talks to the operating system all the time (HTTP probes, signals,
    child processes, sleeps), so every function of the source becomes a
    computation in a small state-and-exception monad [M]:

    - the state is a [World]: the two module globals [_server_proc] and
      [_server_monitor], the signal dispositions of the process, the log
      records written so far, and the chronological [history] of every
      call made to the operating system together with its answer;
    - the operating system is an oracle [OS]: each system call is answered
      by a function of the history so far, so a theorem that quantifies
      over every [OS] covers every behaviour of the network, of the other
      processes and of the file system;
    - a computation ends by returning, by raising a Python exception, or by
      the death of the process ([os._exit], a signal with default
      disposition).

    Embedded are the watchdog, the cleanup, the signal handler, the health
    probe, the startup diagnostics, [ensure_server], [_view_impl] with its
    two tools, and the parent watcher.  The registration with the MCP
    framework, the [view] prompt, [_get_diagnostics],
    [buckaroo_diagnostics] and the event loop of [main] are not.

    Conventions.  A call to the logger is kept as a record (level,
    template, arguments) and never raises.  Each thread and each process
    is followed on its own: the parent watcher and the watchdog are
    computations like the others, and their interleaving with the main
    thread is not described.  Asynchronous exceptions (KeyboardInterrupt)
    are left out. *)

From Stdlib Require Import ZArith QArith List String Ascii Bool Lia.
From Stdlib Require Import DecimalString.
Import ListNotations.

Local Open Scope list_scope.
Local Open Scope string_scope.
Local Open Scope Z_scope.

(** ** Python values *)

(** The values that [json.loads] produces and that the program builds
    itself.  A dict keeps its items in insertion order, as in Python. *)
#[warnings="-register-all"]
Inductive pyval : Type :=
| PyNone
| PyBool (b : bool)
| PyInt (n : Z)
| PyFloat (x : Q)
| PyStr (s : string)
| PyList (l : list pyval)
| PyDict (d : list (string * pyval)).

(** [bool(v)]: the test of [if v:]. *)
Definition truthy (v : pyval) : bool :=
  match v with
  | PyNone => false
  | PyBool b => b
  | PyInt n => negb (n =? 0)
  | PyFloat x => negb (Qeq_bool x 0)
  | PyStr s => negb (s =? "")%string
  | PyList l => match l with [] => false | _ => true end
  | PyDict d => match d with [] => false | _ => true end
  end.

(** [v == n] for an int literal [n]: Python compares numbers by value
    across bool, int and float. *)
Definition py_eq_int (v : pyval) (n : Z) : bool :=
  match v with
  | PyBool b => (if b then 1 else 0) =? n
  | PyInt m => m =? n
  | PyFloat x => Qeq_bool x (inject_Z n)
  | _ => false
  end.

(** [v == s] for a str [s]: only an equal str compares equal. *)
Definition py_eq_str (v : pyval) (s : string) : bool :=
  match v with
  | PyStr t => (t =? s)%string
  | _ => false
  end.

(** Lookup in the item list of a dict. *)
Fixpoint assoc (key : string) (d : list (string * pyval)) : option pyval :=
  match d with
  | [] => None
  | (k, v) :: rest => if (k =? key)%string then Some v else assoc key rest
  end.

(** ** Exceptions *)

(** Subclasses of [OSError] raised by system calls. *)
Inductive os_error : Type :=
| EOther
| ProcessLookupError
| PermissionError
| FileNotFoundError
| ConnectionRefusedError
| ConnectionResetError
| SocketTimeout.

Inductive exn : Type :=
| OSError (k : os_error)
| URLError (reason : os_error)
| HTTPError (code : Z)
| HTTPException
| JSONDecodeError
| AttributeError
| TypeError
| OverflowError
| KeyError (key : string)
| ValueError
| UnicodeDecodeError
| IndexError
| TimeoutExpired
| RuntimeError (msg : string).

(** [isinstance(e, OSError)]: [URLError] derives from [OSError] and
    [HTTPError] from [URLError]. *)
Definition isinstance_OSError (e : exn) : bool :=
  match e with
  | OSError _ | URLError _ | HTTPError _ => true
  | _ => false
  end.

Definition isinstance_URLError (e : exn) : bool :=
  match e with
  | URLError _ | HTTPError _ => true
  | _ => false
  end.

Definition isinstance_TimeoutExpired (e : exn) : bool :=
  match e with
  | TimeoutExpired => true
  | _ => false
  end.

(** [v.get(key, default)]: only a dict has the method. *)
Definition py_get (v : pyval) (key : string) (default : pyval) : exn + pyval :=
  match v with
  | PyDict d => inr (match assoc key d with Some x => x | None => default end)
  | _ => inl AttributeError
  end.

(** [v[key]] with a str key. *)
Definition py_getitem (v : pyval) (key : string) : exn + pyval :=
  match v with
  | PyDict d => match assoc key d with Some x => inr x | None => inl (KeyError key) end
  | _ => inl TypeError
  end.

(** ** The interface to the operating system *)

Inductive signal : Type := SIGTERM | SIGINT | SIGKILL.

Definition signal_name (s : signal) : string :=
  match s with
  | SIGTERM => "SIGTERM"
  | SIGINT => "SIGINT"
  | SIGKILL => "SIGKILL"
  end.

(** What a signal does to the process that receives it. *)
Inductive disposition : Type :=
| SIG_DFL
| Handler_signal_handler.

(** The [stdin], [stdout] and [stderr] arguments of [subprocess.Popen]. *)
Inductive stdio : Type :=
| Inherit
| PIPE
| DEVNULL
| ToFile (path : string).

(** The bytes of an HTTP body, seen through [json.loads]: a body either
    decodes to a value or is not JSON. *)
Inductive body : Type :=
| Parsed (v : pyval)
| Malformed (raw : string).

(** A request: the URL, the POST payload (the value handed to
    [json.dumps]) and the extra headers. *)
Record request : Type := mkRequest {
  req_url : string;
  req_data : option pyval;
  req_headers : list (string * string)
}.

(** Answer of [Popen.wait(timeout=...)]. *)
Inductive wait_answer : Type :=
| WaitExited (returncode : Z)
| WaitTimeoutExpired
| WaitOSError (k : os_error).

(** One call to the operating system with the answer it got: [urlopen],
    [resp.read()], [os.kill], [time.sleep], [open(path, "a")],
    [subprocess.Popen] and the methods [poll], [terminate], [wait] and
    [kill] of its handle, [os.path.isfile], [readlines] of an opened file,
    [os.getppid], [os.getpid], [signal.signal], [os._exit], and the read
    of the standard input up to its end. *)
Inductive event : Type :=
| EvUrlopen (req : request) (timeout : Q) (ans : exn + Z)
| EvRead (ans : exn + body)
| EvOsKill (pid : Z) (sig : signal) (ans : option os_error)
| EvSleep (secs : Q)
| EvOpenAppend (path : string) (ans : option os_error)
| EvPopen (args : list string) (stdin stdout stderr : stdio) (ans : os_error + Z)
| EvPoll (pid : Z) (ans : option Z)
| EvTerminate (pid : Z) (ans : option os_error)
| EvWait (pid : Z) (timeout : Q) (ans : wait_answer)
| EvKill (pid : Z) (ans : option os_error)
| EvIsFile (path : string) (ans : bool)
| EvReadLines (path : string) (ans : exn + list string)
| EvGetppid (ans : Z)
| EvGetpid (ans : Z)
| EvSignal (sig : signal) (disp : disposition)
| EvExit (code : Z)
| EvStdinRead.

(** The operating system as an oracle: every answer is a function of the
    calls made so far.  [ans_urlopen] answers with the status of the
    response or with the exception [urlopen] raises; [ans_read] answers
    [resp.read()]; [ans_readlines] answers with the lines of a text file
    or with the exception that opening or decoding it raises;
    [ans_getpid] is the process id of the supervisor. *)
Record OS : Type := mkOS {
  ans_urlopen : list event -> request -> Q -> exn + Z;
  ans_read : list event -> exn + body;
  ans_kill : list event -> Z -> signal -> option os_error;
  ans_open_append : list event -> string -> option os_error;
  ans_popen : list event -> list string -> os_error + Z;
  ans_poll : list event -> Z -> option Z;
  ans_terminate : list event -> Z -> option os_error;
  ans_wait : list event -> Z -> Q -> wait_answer;
  ans_proc_kill : list event -> Z -> option os_error;
  ans_isfile : list event -> string -> bool;
  ans_readlines : list event -> string -> exn + list string;
  ans_getppid : list event -> Z;
  ans_getpid : Z
}.

(** ** The state of the supervisor process *)

(** A [subprocess.Popen] handle. *)
Record Popen : Type := mkPopen { pid : Z }.

Inductive log_level : Type := DEBUG | INFO | WARNING | ERROR.

(** An argument of a log call: a value, a caught exception or the bytes
    of a body. *)
Inductive log_arg : Type :=
| LVal (v : pyval)
| LExn (e : exn)
| LBody (b : body).

(** A call to the logger: level, %-template and arguments. *)
Record log_record : Type := mkLog {
  log_lvl : log_level;
  log_fmt : string;
  log_args : list log_arg
}.

Record World : Type := mkWorld {
  history : list event;
  logs : list log_record;
  _server_proc : option Popen;
  _server_monitor : option Popen;
  disp_SIGTERM : disposition;
  disp_SIGINT : disposition
}.

Definition record_event (ev : event) (w : World) : World :=
  mkWorld (history w ++ [ev])%list (logs w) (_server_proc w) (_server_monitor w)
          (disp_SIGTERM w) (disp_SIGINT w).

Definition record_log (r : log_record) (w : World) : World :=
  mkWorld (history w) (logs w ++ [r])%list (_server_proc w) (_server_monitor w)
          (disp_SIGTERM w) (disp_SIGINT w).

Definition with_server_proc (p : option Popen) (w : World) : World :=
  mkWorld (history w) (logs w) p (_server_monitor w) (disp_SIGTERM w) (disp_SIGINT w).

Definition with_server_monitor (p : option Popen) (w : World) : World :=
  mkWorld (history w) (logs w) (_server_proc w) p (disp_SIGTERM w) (disp_SIGINT w).

(** The disposition of SIGKILL cannot be changed. *)
Definition get_disposition (w : World) (sig : signal) : disposition :=
  match sig with
  | SIGTERM => disp_SIGTERM w
  | SIGINT => disp_SIGINT w
  | SIGKILL => SIG_DFL
  end.

Definition with_disposition (sig : signal) (d : disposition) (w : World) : World :=
  match sig with
  | SIGTERM => mkWorld (history w) (logs w) (_server_proc w) (_server_monitor w) d (disp_SIGINT w)
  | SIGINT => mkWorld (history w) (logs w) (_server_proc w) (_server_monitor w) (disp_SIGTERM w) d
  | SIGKILL => w
  end.

(** ** The monad *)

(** How a computation ends.  [Pending] stands for a signal sent to the
    process itself while a Python handler is installed for it: the handler
    runs next, which this development does not follow.  [OutOfFuel] is an
    unbounded loop cut off by its fuel. *)
Inductive outcome (A : Type) : Type :=
| Returned (a : A)
| Raised (e : exn)
| Exited (code : Z)
| Killed (sig : signal)
| Pending (sig : signal)
| OutOfFuel.

Arguments Returned {A} a.
Arguments Raised {A} e.
Arguments Exited {A} code.
Arguments Killed {A} sig.
Arguments Pending {A} sig.
Arguments OutOfFuel {A}.

Definition M (A : Type) : Type := World -> outcome A * World.

Definition ret {A} (a : A) : M A := fun w => (Returned a, w).

Definition raise {A} (e : exn) : M A := fun w => (Raised e, w).

Definition bind {A B} (m : M A) (k : A -> M B) : M B := fun w =>
  match m w with
  | (Returned a, w') => k a w'
  | (Raised e, w') => (Raised e, w')
  | (Exited c, w') => (Exited c, w')
  | (Killed s, w') => (Killed s, w')
  | (Pending s, w') => (Pending s, w')
  | (OutOfFuel, w') => (OutOfFuel, w')
  end.

(** [try: body  except <classes matched by catches> as exc: handler exc] *)
Definition try_except {A} (body : M A) (catches : exn -> bool) (handler : exn -> M A) : M A :=
  fun w =>
    match body w with
    | (Raised e, w') => if catches e then handler e w' else (Raised e, w')
    | r => r
    end.

Definition lift {A} (r : exn + A) : M A :=
  match r with
  | inl e => raise e
  | inr a => ret a
  end.

Declare Scope py_scope.
Delimit Scope py_scope with py.
Notation "x <- c ;; k" := (bind c (fun x => k))
  (at level 100, c at next level, right associativity) : py_scope.
Notation "c ;; k" := (bind c (fun _ => k))
  (at level 100, right associativity) : py_scope.
Local Open Scope py_scope.

Definition get_world : M World := fun w => (Returned w, w).

(** Ask the operating system and record the call with its answer. *)
Definition ask {A} (answer : list event -> A) (ev : A -> event) : M A := fun w =>
  let a := answer (history w) in (Returned a, record_event (ev a) w).

Definition oserr_to_exn {A} (r : os_error + A) : exn + A :=
  match r with
  | inl k => inl (OSError k)
  | inr a => inr a
  end.

Definition oserr_opt (r : option os_error) : exn + unit :=
  match r with
  | Some k => inl (OSError k)
  | None => inr tt
  end.

(** ** Strings, paths and slices *)

(** The newline character that the source writes as a backslash escape. *)
Definition nl : string := String (ascii_of_nat 10) EmptyString.

(** [str(n)] for an int. *)
Definition str_of_Z (n : Z) : string := NilZero.string_of_int (Z.to_int n).

(** [sep.join(parts)] *)
Fixpoint str_join (sep : string) (parts : list string) : string :=
  match parts with
  | [] => ""
  | [p] => p
  | p :: rest => p ++ sep ++ str_join sep rest
  end.

(** [os.path.join(a, b)] on a POSIX system. *)
Definition ends_with_slash (s : string) : bool :=
  match get (String.length s - 1) s with
  | Some c => Ascii.eqb c "/"%char
  | None => false
  end.

Definition path_join (a b : string) : string :=
  match b with
  | String c _ =>
      if Ascii.eqb c "/"%char then b
      else if (a =? "")%string || ends_with_slash a then a ++ b
      else a ++ "/" ++ b
  | EmptyString =>
      if (a =? "")%string || ends_with_slash a then a else a ++ "/"
  end.

(** [os.path.basename(p)]: what follows the last slash. *)
Fixpoint basename_from (p : string) (acc : string) : string :=
  match p with
  | EmptyString => acc
  | String c rest =>
      if Ascii.eqb c "/"%char then basename_from rest ""
      else basename_from rest (acc ++ String c EmptyString)
  end.

Definition os_path_basename (p : string) : string := basename_from p "".

(** [l[-n:]]: the last [n] items for a positive [n], the whole list for
    0, and the items from index [-n] on for a negative [n]. *)
Definition slice_last {A} (n : Z) (l : list A) : list A :=
  if n >? 0 then skipn (List.length l - Z.to_nat n)%nat l
  else skipn (Z.to_nat (- n)) l.

(** Whitespace for [str.split()] and [int()]: space, tab, newline,
    vertical tab, form feed, carriage return and the separators 28..31. *)
Definition is_space (c : ascii) : bool :=
  let n := nat_of_ascii c in
  ((n =? 32) || ((9 <=? n) && (n <=? 13)) || ((28 <=? n) && (n <=? 31)))%nat.

Fixpoint drop_spaces (s : string) : string :=
  match s with
  | String c rest => if is_space c then drop_spaces rest else s
  | EmptyString => EmptyString
  end.

Fixpoint take_token (s : string) : string :=
  match s with
  | String c rest => if is_space c then EmptyString else String c (take_token rest)
  | EmptyString => EmptyString
  end.

(** [s.split()[0]]: the first whitespace-delimited word; [IndexError]
    when there is none. *)
Definition split_first (s : string) : exn + string :=
  match drop_spaces s with
  | EmptyString => inl IndexError
  | t => inr (take_token t)
  end.

(** [needle in hay] *)
Definition contains (needle hay : string) : Prop :=
  exists pre post, hay = pre ++ needle ++ post.

(** ** [int(text)] for the port *)






(** ** Module level: the process environment and the constants *)

(** What the module reads from its process when it is imported, and the
    library functions whose results the module only prints. *)
Record Env : Type := mkEnv {
  sys_executable : string;
  sys_version : string;
  home : string;                      (* os.path.expanduser("~") *)
  environ : string -> option string;  (* os.environ *)
  buckaroo_version : option string;   (* buckaroo.__version__, when set *)
  SESSION_ID : string;                (* uuid.uuid4().hex[:12] *)
  os_path_abspath : string -> string; (* relative to the working directory *)
  py_str : pyval -> string;           (* str(v), as an f-string prints v *)
  py_format_comma : pyval -> exn + string  (* format(v, ",") *)
}.



(** ** The program *)

Section Supervisor.

Variable os : OS.
Variable env : Env.
Variable SERVER_PORT : Z.

Definition LOG_DIR : string := path_join (path_join (home env) ".buckaroo") "logs".
Definition LOG_FILE : string := path_join LOG_DIR "mcp_tool.log".
Definition SERVER_URL : string := "http://localhost:" ++ str_of_Z SERVER_PORT.

(** *** System calls and library calls *)

Definition log (lvl : log_level) (fmt : string) (args : list log_arg) : M unit :=
  fun w => (Returned tt, record_log (mkLog lvl fmt args) w).

Definition set_server_proc (p : option Popen) : M unit :=
  fun w => (Returned tt, with_server_proc p w).

Definition set_server_monitor (p : option Popen) : M unit :=
  fun w => (Returned tt, with_server_monitor p w).

(** [urlopen(req, timeout=...)]: the status of the response. *)
Definition urlopen (req : request) (timeout : Q) : M Z :=
  r <- ask (fun h => ans_urlopen os h req timeout) (EvUrlopen req timeout) ;;
  lift r.

(** [resp.read()] *)
Definition resp_read : M body :=
  r <- ask (ans_read os) EvRead ;;
  lift r.

(** [json.loads(raw)] *)
Definition json_loads (raw : body) : M pyval :=
  match raw with
  | Parsed v => ret v
  | Malformed _ => raise JSONDecodeError
  end.

Definition time_sleep (secs : Q) : M unit :=
  fun w => (Returned tt, record_event (EvSleep secs) w).

(** The conversion of the first argument of [os.kill] to a C [pid_t]
    (32 bits): an int that fits, else [OverflowError]; any other type
    gives [TypeError]. *)
Definition as_pid (v : pyval) : exn + Z :=
  match v with
  | PyInt n => if (- 2 ^ 31 <=? n) && (n <? 2 ^ 31) then inr n else inl OverflowError
  | PyBool b => inr (if b then 1 else 0)
  | _ => inl TypeError
  end.

(** A signal that reaches the process itself: the default action of each
    signal of [signal] is to terminate the process. *)
Definition deliver_to_self (sig : signal) : M unit := fun w =>
  match get_disposition w sig with
  | SIG_DFL => (Killed sig, w)
  | Handler_signal_handler => (Pending sig, w)
  end.

(** [os.kill(target, sig)].  A signal to another process is answered by
    the oracle; a signal to the own process id is always delivered.
    Process groups (a target of 0 or below) are not told apart from other
    targets. *)
Definition os_kill (target : pyval) (sig : signal) : M unit :=
  p <- lift (as_pid target) ;;
  if p =? ans_getpid os then
    (fun w => (Returned tt, record_event (EvOsKill p sig None) w)) ;;
    deliver_to_self sig
  else
    r <- ask (fun h => ans_kill os h p sig) (EvOsKill p sig) ;;
    lift (oserr_opt r).

Definition os_getpid : M Z := ask (fun _ => ans_getpid os) EvGetpid.

Definition os_getppid : M Z := ask (ans_getppid os) EvGetppid.

(** [os._exit(code)]: the process ends at once, no handler runs. *)
Definition os__exit (code : Z) : M unit :=
  fun w => (Exited code, record_event (EvExit code) w).

(** [signal.signal(sig, disp)]; SIGKILL cannot be caught or reset. *)
Definition signal_signal (sig : signal) (disp : disposition) : M unit :=
  match sig with
  | SIGKILL => raise (OSError EOther)
  | _ => fun w => (Returned tt, with_disposition sig disp (record_event (EvSignal sig disp) w))
  end.

(** [open(path, "a")] *)
Definition open_append (path : string) : M unit :=
  r <- ask (fun h => ans_open_append os h path) (EvOpenAppend path) ;;
  lift (oserr_opt r).

(** [subprocess.Popen(args, stdin=..., stdout=..., stderr=...)] *)
Definition subprocess_Popen (args : list string) (stdin stdout stderr : stdio) : M Popen :=
  r <- ask (fun h => ans_popen os h args) (EvPopen args stdin stdout stderr) ;;
  p <- lift (oserr_to_exn r) ;;
  ret (mkPopen p).

(** [proc.poll()]: the return code, or [None] while the child runs. *)
Definition Popen_poll (proc : Popen) : M (option Z) :=
  ask (fun h => ans_poll os h (pid proc)) (EvPoll (pid proc)).

Definition Popen_terminate (proc : Popen) : M unit :=
  r <- ask (fun h => ans_terminate os h (pid proc)) (EvTerminate (pid proc)) ;;
  lift (oserr_opt r).

Definition Popen_wait (proc : Popen) (timeout : Q) : M Z :=
  r <- ask (fun h => ans_wait os h (pid proc) timeout) (EvWait (pid proc) timeout) ;;
  match r with
  | WaitExited rc => ret rc
  | WaitTimeoutExpired => raise TimeoutExpired
  | WaitOSError k => raise (OSError k)
  end.

Definition Popen_kill (proc : Popen) : M unit :=
  r <- ask (fun h => ans_proc_kill os h (pid proc)) (EvKill (pid proc)) ;;
  lift (oserr_opt r).

Definition os_path_isfile (path : string) : M bool :=
  ask (fun h => ans_isfile os h path) (EvIsFile path).

(** [with open(path) as f: lines = f.readlines()]: the lines of the
    file, or the exception that the opening or the reading raises: an
    [OSError] when the file cannot be opened or read, and
    [UnicodeDecodeError] (a [ValueError], no [OSError]) when its bytes
    are no text in the default encoding. *)
Definition open_readlines (path : string) : M (list string) :=
  r <- ask (fun h => ans_readlines os h path) (EvReadLines path) ;;
  lift r.

(** [sys.stdin.buffer.read()]: returns at the end of the stream. *)
Definition stdin_read : M unit :=
  fun w => (Returned tt, record_event EvStdinRead w).

(** *** The watchdog (lines 41-65) *)

(** The program text handed to [python -c]. *)
Definition monitor_code (server_pid : Z) : string :=
  "import os, sys, signal" ++ nl ++
  "server_pid = " ++ str_of_Z server_pid ++ nl ++
  "sys.stdin.buffer.read()" ++ nl ++
  "try:" ++ nl ++
  "    os.kill(server_pid, signal.SIGTERM)" ++ nl ++
  "except OSError:" ++ nl ++
  "    pass" ++ nl.

(** What that text does when it runs, as a process of its own. *)
Definition monitor_main (server_pid : Z) : M unit :=
  stdin_read ;;
  try_except (os_kill (PyInt server_pid) SIGTERM)
             isinstance_OSError
             (fun _ => ret tt).

Definition _start_server_monitor (server_pid : Z) : M unit :=
  m <- subprocess_Popen [sys_executable env; "-c"; monitor_code server_pid]
                        PIPE DEVNULL DEVNULL ;;
  set_server_monitor (Some m) ;;
  log INFO "Started server monitor (pid=%d) watching server pid=%d"
      [LVal (PyInt (pid m)); LVal (PyInt server_pid)].

(** *** Cleanup (lines 68-90) *)

Definition _cleanup_server : M unit :=
  w <- get_world ;;
  match _server_proc w with
  | Some proc =>
      try_except
        (rc <- Popen_poll proc ;;
         match rc with
         | None =>
             log INFO "Shutting down server (pid=%d)" [LVal (PyInt (pid proc))] ;;
             Popen_terminate proc ;;
             try_except
               (_ <- Popen_wait proc 3 ;; ret tt)
               isinstance_TimeoutExpired
               (fun _ =>
                  log WARNING "Server didn't stop after SIGTERM, sending SIGKILL" [] ;;
                  Popen_kill proc)
         | Some _ => ret tt
         end)
        isinstance_OSError
        (fun exc => log DEBUG "Cleanup error (harmless): %s" [LExn exc]) ;;
      set_server_proc None
  | None => ret tt
  end ;;
  w <- get_world ;;
  match _server_monitor w with
  | Some mon =>
      try_except
        (Popen_terminate mon ;;
         _ <- Popen_wait mon 2 ;;
         ret tt)
        (fun e => isinstance_OSError e || isinstance_TimeoutExpired e)
        (fun _ => ret tt) ;;
      set_server_monitor None
  | None => ret tt
  end.

(** [atexit.register(_cleanup_server)]: what a normal exit runs. *)
Definition atexit_handlers : list (M unit) := [_cleanup_server].

Fixpoint run_all (hs : list (M unit)) : M unit :=
  match hs with
  | [] => ret tt
  | h :: rest => h ;; run_all rest
  end.

Definition normal_exit : M unit := run_all (rev atexit_handlers).

(** *** Signals (lines 96-106) *)

Definition _signal_handler (signum : signal) : M unit :=
  log INFO "Received signal %s — cleaning up" [LVal (PyStr (signal_name signum))] ;;
  _cleanup_server ;;
  signal_signal signum SIG_DFL ;;
  me <- os_getpid ;;
  os_kill (PyInt me) signum.

(** Lines 105-106: the signals that [_signal_handler] is installed for. *)
Definition registered_signals : list signal := [SIGTERM; SIGINT].

(** The world right after the import: nothing started, the handler
    installed for both signals. *)
Definition imported_world : World :=
  mkWorld [] [mkLog INFO "MCP tool starting — server=%s session=%s"
                    [LVal (PyStr SERVER_URL); LVal (PyStr (SESSION_ID env))]]
          None None Handler_signal_handler Handler_signal_handler.

(** The process receives [sig] from outside. *)
Definition receive_signal (sig : signal) : M unit := fun w =>
  match get_disposition w sig with
  | SIG_DFL => (Killed sig, w)
  | Handler_signal_handler => _signal_handler sig w
  end.

(** *** The health probe (lines 125-135) *)

Definition health_request : request :=
  mkRequest (SERVER_URL ++ "/health") None [].

(** The [try] block hands back [Some data] when it returns from the
    function and [None] when control falls through to [return None]. *)
Definition _health_check : M pyval :=
  r <- try_except
         (status <- urlopen health_request 2 ;;
          if status =? 200 then
            raw <- resp_read ;;
            data <- json_loads raw ;;
            log DEBUG "Health check OK: %s" [LVal data] ;;
            ret (Some data)
          else ret None)
         (fun e => isinstance_URLError e || isinstance_OSError e)
         (fun exc =>
            log DEBUG "Health check failed: %s" [LExn exc] ;;
            ret None) ;;
  match r with
  | Some data => ret data
  | None => ret PyNone
  end.

(** *** Diagnostics of a failed start (lines 149-183) *)

Definition _read_server_log_tail (n_lines : Z) : M string :=
  let server_log := path_join LOG_DIR "server.log" in
  r <- try_except
         (present <- os_path_isfile server_log ;;
          if present then
            lines <- open_readlines server_log ;;
            ret (Some (str_join "" (slice_last n_lines lines)))
          else ret None)
         isinstance_OSError
         (fun _ => ret None) ;;
  match r with
  | Some text => ret text
  | None => ret "(server log not found)"
  end.

Definition _format_startup_failure : M string :=
  let server_log := path_join LOG_DIR "server.log" in
  let mcp_log := LOG_FILE in
  tail <- _read_server_log_tail 20 ;;
  version <- lift (split_first (sys_version env)) ;;
  ret ("Buckaroo data server failed to start." ++ nl ++ nl ++
       "## Diagnostic info" ++ nl ++
       "- Python: " ++ sys_executable env ++ " (" ++ version ++ ")" ++ nl ++
       "- Server URL: " ++ SERVER_URL ++ nl ++
       "- Log dir: " ++ LOG_DIR ++ nl ++ nl ++
       "## Server log (last 20 lines)" ++ nl ++ "```" ++ nl ++ tail ++ nl ++ "```" ++ nl ++ nl ++
       "## What to check" ++ nl ++
       "1. Is port " ++ str_of_Z SERVER_PORT ++ " already in use? " ++
       "(`lsof -i :" ++ str_of_Z SERVER_PORT ++ "`)" ++ nl ++
       "2. Check the full server log: `cat " ++ server_log ++ "`" ++ nl ++
       "3. Check the MCP tool log: `cat " ++ mcp_log ++ "`" ++ nl ++
       "4. Try starting the server manually: " ++
       "`" ++ sys_executable env ++ " -m buckaroo.server --no-browser --port " ++
       str_of_Z SERVER_PORT ++ "`" ++ nl).

(** *** Starting the server (lines 186-252) *)

(** [getattr(buckaroo, "__version__", "unknown")] *)
Definition expected_version : string :=
  match buckaroo_version env with
  | Some v => v
  | None => "unknown"
  end.

(** The dict that [ensure_server] returns. *)
Definition server_info (status : string) (server_pid uptime : pyval) : pyval :=
  PyDict [("server_status", PyStr status);
          ("server_pid", server_pid);
          ("server_uptime_s", uptime)].

(** Lines 197-221: reuse a server of the expected version, or tear down
    one of another version.  [Some info] is the early [return]. *)
Definition ensure_server_reconcile : M (option pyval) :=
  health <- _health_check ;;
  if truthy health then
    running_version <- lift (py_get health "version" (PyStr "unknown")) ;;
    if py_eq_str running_version expected_version then
      server_pid <- lift (py_get health "pid" PyNone) ;;
      uptime <- lift (py_get health "uptime_s" (PyInt 0)) ;;
      log INFO "Server already running (v%s) — pid=%s uptime=%.0fs"
          [LVal running_version; LVal server_pid; LVal uptime] ;;
      ret (Some (server_info "reused" server_pid uptime))
    else
      old_pid <- lift (py_get health "pid" PyNone) ;;
      log INFO "Version mismatch: running=%s expected=%s — killing old server (pid=%s)"
          [LVal running_version; LVal (PyStr expected_version); LVal old_pid] ;;
      (if truthy old_pid then
         try_except
           (os_kill old_pid SIGTERM ;;
            time_sleep 1 ;;
            still <- _health_check ;;
            if truthy still then
              os_kill old_pid SIGKILL ;;
              time_sleep (1 # 2)
            else ret tt)
           isinstance_OSError
           (fun exc => log DEBUG "Kill old server error (harmless): %s" [LExn exc])
       else ret tt) ;;
      ret None
  else ret None.

(** The command line of the server. *)
Definition server_cmd : list string :=
  [sys_executable env; "-m"; "buckaroo.server"].

(** Lines 223-230: launch the server, then its watchdog. *)
Definition ensure_server_launch : M unit :=
  let cmd := server_cmd in
  log INFO "Starting server: %s" [LVal (PyStr (str_join " " cmd))] ;;
  let server_log := path_join LOG_DIR "server.log" in
  open_append server_log ;;
  proc <- subprocess_Popen cmd Inherit (ToFile server_log) (ToFile server_log) ;;
  set_server_proc (Some proc) ;;
  _start_server_monitor (pid proc).

(** The names of the static files that are missing or empty. *)
Fixpoint missing_static (items : list (string * pyval)) : exn + list string :=
  match items with
  | [] => inr []
  | (name, info) :: rest =>
      match py_get info "exists" PyNone with
      | inl e => inl e
      | inr present =>
          let keep (bad : bool) :=
            match missing_static rest with
            | inl e => inl e
            | inr names => inr (if bad then name :: names else names)
            end in
          if negb (truthy present) then keep true
          else
            match py_get info "size_bytes" (PyInt 0) with
            | inl e => inl e
            | inr size => keep (py_eq_int size 0)
            end
      end
  end.

(** [v.items()] *)
Definition py_items (v : pyval) : exn + list (string * pyval) :=
  match v with
  | PyDict d => inr d
  | _ => inl AttributeError
  end.

(** Lines 232-249: [for i in range(20)], with [n] rounds left and [i] the
    loop variable.  [Some info] is the [return] inside the loop. *)
Fixpoint ensure_server_poll (n : nat) (i : Z) : M (option pyval) :=
  match n with
  | O => ret None
  | S n' =>
      time_sleep (1 # 4) ;;
      health <- _health_check ;;
      if truthy health then
        server_pid <- lift (py_get health "pid" PyNone) ;;
        log INFO "Server ready after %.1fs — pid=%s"
            [LVal (PyFloat (inject_Z (i + 1) * (1 # 4))); LVal server_pid] ;;
        static_files <- lift (py_get health "static_files" (PyDict [])) ;;
        items <- lift (py_items static_files) ;;
        missing <- lift (missing_static items) ;;
        match missing with
        | [] => ret tt
        | _ => log WARNING "Static files missing or empty: %s — pages may be blank"
                   [LVal (PyList (map PyStr missing))]
        end ;;
        server_pid <- lift (py_get health "pid" PyNone) ;;
        uptime <- lift (py_get health "uptime_s" (PyInt 0)) ;;
        ret (Some (server_info "started" server_pid uptime))
      else ensure_server_poll n' (i + 1)
  end.

Definition ensure_server : M pyval :=
  reused <- ensure_server_reconcile ;;
  match reused with
  | Some info => ret info
  | None =>
      ensure_server_launch ;;
      started <- ensure_server_poll 20 0 ;;
      match started with
      | Some info => ret info
      | None =>
          log ERROR "Server failed to start within 5s — see %s"
              [LVal (PyStr (path_join LOG_DIR "server.log"))] ;;
          msg <- _format_startup_failure ;;
          raise (RuntimeError msg)
      end
  end.

(** *** Loading a file (lines 255-329) *)

Definition load_request (path : string) : request :=
  mkRequest (SERVER_URL ++ "/load")
            (Some (PyDict [("session", PyStr (SESSION_ID env));
                           ("path", PyStr path);
                           ("mode", PyStr "buckaroo")]))
            [("Content-Type", "application/json")].

(** [hasattr(exc, "read")]: of the exceptions here only an [HTTPError]
    carries a body. *)
Definition has_read (e : exn) : bool :=
  match e with
  | HTTPError _ => true
  | _ => false
  end.

(** The items that [for c in v] visits. *)
Definition py_iter (v : pyval) : exn + list pyval :=
  match v with
  | PyList l => inr l
  | PyDict d => inr (map (fun kv => PyStr (fst kv)) d)
  | PyStr s => inr (map (fun c => PyStr (String c EmptyString)) (list_ascii_of_string s))
  | _ => inl TypeError
  end.

(** The lines ["  - {c['name']} ({c['dtype']})"], one for each column. *)
Fixpoint column_lines (cols : list pyval) : exn + list string :=
  match cols with
  | [] => inr []
  | c :: rest =>
      match py_getitem c "name" with
      | inl e => inl e
      | inr name =>
          match py_getitem c "dtype" with
          | inl e => inl e
          | inr dtype =>
              match column_lines rest with
              | inl e => inl e
              | inr lines =>
                  inr (("  - " ++ py_str env name ++ " (" ++ py_str env dtype ++ ")") :: lines)
              end
          end
      end
  end.

Definition _view_impl (path : string) : M string :=
  let path := os_path_abspath env path in
  log INFO "view_data called — path=%s" [LVal (PyStr path)] ;;
  server_info <- try_except ensure_server
                   (fun _ => true)
                   (fun exc =>
                      log ERROR ("ensure_server failed:" ++ nl ++ "%s") [LExn exc] ;;
                      raise exc) ;;
  let payload := req_data (load_request path) in
  log DEBUG "POST %s/load payload=%s"
      [LVal (PyStr SERVER_URL);
       LVal (match payload with Some v => v | None => PyNone end)] ;;
  raw <- try_except
           (status <- urlopen (load_request path) 30 ;;
            raw <- resp_read ;;
            log DEBUG "Response status=%d body=%s" [LVal (PyInt status); LBody raw] ;;
            ret raw)
           (fun _ => true)
           (fun exc =>
              err_body <- (if has_read exc then
                             try_except (b <- resp_read ;; ret [LBody b])
                                        (fun _ => true)
                                        (fun _ => ret [LVal (PyStr "")])
                           else ret [LVal (PyStr "")]) ;;
              log ERROR ("HTTP request to /load failed: %s body=%s" ++ nl ++ "%s")
                  (LExn exc :: err_body) ;;
              raise exc) ;;
  result <- json_loads raw ;;
  rows <- lift (py_getitem result "rows") ;;
  cols <- lift (py_getitem result "columns") ;;
  items <- lift (py_iter cols) ;;
  lines <- lift (column_lines items) ;;
  let col_lines := str_join nl lines in
  let url := SERVER_URL ++ "/s/" ++ SESSION_ID env in
  browser_action <- lift (py_get result "browser_action" (PyStr "unknown")) ;;
  fallback_pid <- lift (py_get server_info "server_pid" (PyStr "?")) ;;
  server_pid <- lift (py_get result "server_pid" fallback_pid) ;;
  rows_text <- lift (py_format_comma env rows) ;;
  status <- lift (py_getitem server_info "server_status") ;;
  let summary :=
    "Loaded **" ++ os_path_basename path ++ "** — " ++
    rows_text ++ " rows, " ++ str_of_Z (Z.of_nat (List.length items)) ++ " columns" ++ nl ++ nl ++
    "Columns:" ++ nl ++ col_lines ++ nl ++ nl ++
    "Interactive view: " ++ url ++ nl ++
    "Server: pid=" ++ py_str env server_pid ++ " (" ++ py_str env status ++ ") | " ++
    "Browser: " ++ py_str env browser_action ++ " | Session: " ++ SESSION_ID env in
  log INFO "view_data success — %d rows, %d cols, browser=%s, server=%s(%s)"
      [LVal rows; LVal (PyInt (Z.of_nat (List.length items))); LVal browser_action;
       LVal server_pid; LVal status] ;;
  ret summary.

(** The two tools of the module. *)
Definition view_data (path : string) : M string := _view_impl path.

Definition buckaroo_table (path : string) : M string := _view_impl path.

(** *** The parent watcher (lines 399-422) *)

(** The body of [while True] in [_watcher], [fuel] rounds of it. *)
Fixpoint _watcher (fuel : nat) (original_ppid : Z) : M unit :=
  match fuel with
  | O => fun w => (OutOfFuel, w)
  | S fuel' =>
      time_sleep 1 ;;
      current_ppid <- os_getppid ;;
      (if negb (current_ppid =? original_ppid) then
         log INFO "Parent changed %d → %d — cleaning up"
             [LVal (PyInt original_ppid); LVal (PyInt current_ppid)] ;;
         _cleanup_server ;;
         os__exit 0
       else ret tt) ;;
      _watcher fuel' original_ppid
  end.

(** [_start_parent_watcher] followed by the thread it starts. *)
Definition _start_parent_watcher (fuel : nat) : M unit :=
  original_ppid <- os_getppid ;;
  log INFO "Parent watcher: original ppid=%d" [LVal (PyInt original_ppid)] ;;
  _watcher fuel original_ppid.

End Supervisor.

(** * Vocabulary of the properties *)

(** A process id that the kernel hands out: positive and within [pid_t]. *)
Definition is_pid (p : Z) : Prop := 0 < p < 2 ^ 31.

(** The log record that opens [_signal_handler]. *)
Definition signal_received_log (sig : signal) : log_record :=
  mkLog INFO "Received signal %s — cleaning up" [LVal (PyStr (signal_name sig))].

(** One quiet round of the watcher: sleep one second, then read the
    parent process id. *)
Definition watcher_sleeps (w : World) : World := record_event (EvSleep 1) w.

Definition ppid_seen (os : OS) (w : World) : Z :=
  ans_getppid os (history (watcher_sleeps w)).

Definition watcher_round (os : OS) (w : World) : World :=
  record_event (EvGetppid (ppid_seen os w)) (watcher_sleeps w).

Fixpoint watcher_rounds (os : OS) (k : nat) (w : World) : World :=
  match k with
  | O => w
  | S k' => watcher_rounds os k' (watcher_round os w)
  end.

(** The start of [_start_parent_watcher]: the parent process id is read
    and logged. *)
Definition watcher_started (os : OS) (w : World) : World :=
  record_log (mkLog INFO "Parent watcher: original ppid=%d"
                    [LVal (PyInt (ans_getppid os (history w)))])
             (record_event (EvGetppid (ans_getppid os (history w))) w).

Definition parent_changed_log (original current : Z) : log_record :=
  mkLog INFO "Parent changed %d → %d — cleaning up"
        [LVal (PyInt original); LVal (PyInt current)].

(** The system calls of one health probe: the request, and the read of
    the body when the request was answered with status 200. *)
Definition probe_events (port : Z) (evs : list event) : Prop :=
  exists ans,
    evs = [EvUrlopen (health_request port) 2 ans] \/
    exists r, evs = [EvUrlopen (health_request port) 2 ans; EvRead r].

(** [w'] is [w] some system calls later. *)
Definition extends (w w' : World) : Prop :=
  exists evs, history w' = (history w ++ evs)%list.

Definition health_ok_log (data : pyval) : log_record :=
  mkLog DEBUG "Health check OK: %s" [LVal data].

Definition health_failed_log (exc : exn) : log_record :=
  mkLog DEBUG "Health check failed: %s" [LExn exc].

(** The world after the request of a health probe got the answer [ans]. *)
Definition request_sent (port : Z) (w : World) (ans : exn + Z) : World :=
  record_event (EvUrlopen (health_request port) 2 ans) w.

(** The number of [subprocess.Popen] calls among some system calls. *)
Definition is_popen (ev : event) : bool :=
  match ev with
  | EvPopen _ _ _ _ _ => true
  | _ => false
  end.

Definition count_popen (evs : list event) : nat :=
  List.length (filter is_popen evs).

(** The health report that the last system call read, if the last system
    call was the read of a JSON body. *)
Definition last_report (h : list event) : option pyval :=
  match last h EvStdinRead with
  | EvRead (inr (Parsed v)) => Some v
  | _ => None
  end.

(** The report of the scenario of C5. *)
Definition report_501 : pyval :=
  PyDict [("status", PyStr "ok"); ("pid", PyInt 501); ("version", PyStr "1.2.0")].

Definition reused_log (running_version server_pid uptime : pyval) : log_record :=
  mkLog INFO "Server already running (v%s) — pid=%s uptime=%.0fs"
        [LVal running_version; LVal server_pid; LVal uptime].

(** What the dict returned by [ensure_server] is made of: a true report,
    read by the last system call of the run. *)
Definition built_from_last_report (info : pyval) (w' : World) : Prop :=
  exists report status server_pid uptime,
    last_report (history w') = Some report /\
    truthy report = true /\
    py_get report "pid" PyNone = inr server_pid /\
    py_get report "uptime_s" (PyInt 0) = inr uptime /\
    info = server_info status server_pid uptime.

(** C2 as it is worded: the first call returns; the second call follows
    at once, so its probe gets the report that the first call ended on;
    then the second call returns status "reused" and starts no process. *)
Definition second_call_reuses (os : OS) (env : Env) (port : Z) (w : World) : Prop :=
  forall info1 w1 report w1',
    ensure_server os env port w = (Returned info1, w1) ->
    last_report (history w1) = Some report ->
    _health_check os port w1 = (Returned report, w1') ->
    exists server_pid uptime w2 evs,
      ensure_server os env port w1 =
        (Returned (server_info "reused" server_pid uptime), w2) /\
      history w2 = (history w1 ++ evs)%list /\
      count_popen evs = 0%nat.

(** [n] rounds of the polling loop: a sleep of a quarter of a second,
    then one health probe. *)
Inductive polled (port : Z) : nat -> list event -> Prop :=
| polled_none : polled port 0 []
| polled_round (n : nat) (probe rest : list event) :
    probe_events port probe ->
    polled port n rest ->
    polled port (S n) (EvSleep (1 # 4) :: probe ++ rest)%list.

(** The seconds slept in some system calls. *)
Fixpoint total_sleep (evs : list event) : Q :=
  match evs with
  | [] => 0
  | EvSleep secs :: rest => secs + total_sleep rest
  | _ :: rest => total_sleep rest
  end.

(** The system calls of [_read_server_log_tail]: the test for the log
    file and, when it is there, the read of its lines. *)
Definition log_tail_events (env : Env) (evs : list event) : Prop :=
  let server_log := path_join (LOG_DIR env) "server.log" in
  evs = [EvIsFile server_log false] \/
  exists r, evs = [EvIsFile server_log true; EvReadLines server_log r].

(** The service never answers after [w]: every later probe returns [None]. *)
Definition never_healthy (os : OS) (port : Z) (w : World) : Prop :=
  forall w', extends w w' -> fst (_health_check os port w') = Returned PyNone.

(** With [h] behind it, the read of the server log raises [e], which is
    no [OSError]: the log is a file, and opening or decoding it fails
    with [e]. *)
Definition log_read_raises_at (os : OS) (env : Env) (h : list event) (e : exn) : Prop :=
  let server_log := path_join (LOG_DIR env) "server.log" in
  ans_isfile os h server_log = true /\
  ans_readlines os (h ++ [EvIsFile server_log true])%list server_log = inl e /\
  isinstance_OSError e = false.

(** After [w] the server log cannot be read as text: every read of it
    raises [e], which is no [OSError]. *)
Definition log_read_raises (os : OS) (env : Env) (w : World) (e : exn) : Prop :=
  forall w', extends w w' -> log_read_raises_at os env (history w') e.

(** After [w] the server log is missing, unreadable with an [OSError], or
    text: no read of it raises anything but an [OSError]. *)
Definition log_read_safe (os : OS) (env : Env) (w : World) : Prop :=
  forall w' e, extends w w' -> ~ log_read_raises_at os env (history w') e.

(** The processes that [terminate()] was called on, in the order of the
    calls. *)
Fixpoint terminated (evs : list event) : list Z :=
  match evs with
  | [] => []
  | EvTerminate p _ :: rest => p :: terminated rest
  | _ :: rest => terminated rest
  end.

(** The children that the supervisor holds in [w] and that are there to
    be terminated: the server when its handle is set and [poll] finds it
    still running, and the watchdog when its handle is set. *)
Definition children_to_terminate (os : OS) (w : World) : list Z :=
  (match _server_proc w with
   | Some proc =>
       match ans_poll os (history w) (pid proc) with
       | None => [pid proc]
       | Some _ => []
       end
   | None => []
   end ++
   match _server_monitor w with
   | Some mon => [pid mon]
   | None => []
   end)%list.

(** Two calls of [ensure_server], one right after the other. *)
Definition ensure_server_twice (os : OS) (env : Env) (port : Z) : M (pyval * pyval) :=
  first <- ensure_server os env port ;;
  second <- ensure_server os env port ;;
  ret (first, second).

(** Every system call that [m] makes satisfies [P], from any world. *)
Definition emits {A} (P : event -> Prop) (m : M A) : Prop :=
  forall w, exists evs,
    history (snd (m w)) = (history w ++ evs)%list /\ Forall P evs.

(** C10 on one system call: a process is started with the fixed command
    line of the server or as the watchdog of some process, and a request
    goes to the health or the load endpoint of the configured port. *)
Definition as_configured (env : Env) (port : Z) (ev : event) : Prop :=
  match ev with
  | EvPopen args _ _ _ _ =>
      args = [sys_executable env; "-m"; "buckaroo.server"] \/
      exists p, args = [sys_executable env; "-c"; monitor_code p]
  | EvUrlopen req _ _ =>
      req_url req = "http://localhost:" ++ str_of_Z port ++ "/health" \/
      req_url req = "http://localhost:" ++ str_of_Z port ++ "/load"
  | _ => True
  end.




(** System calls that begin with the launch of the server: the log file
    is opened for appending and, when that worked, the server is started
    with its fixed command line and its output sent to the log. *)
Definition starts_with_launch (env : Env) (evs : list event) : Prop :=
  let server_log := path_join (LOG_DIR env) "server.log" in
  exists opened rest,
    evs = EvOpenAppend server_log opened :: rest /\
    (opened = None ->
     exists started rest',
       rest = EvPopen (server_cmd env) Inherit (ToFile server_log) (ToFile server_log)
                      started :: rest').


(** * Scenarios *)

(** [format(n, ",")] for an int: the digits in groups of three. *)
Fixpoint group_thousands (digits : list ascii) (lead : nat) : list ascii :=
  match digits with
  | [] => []
  | d :: rest =>
      match lead with
      | O => ","%char :: d :: group_thousands rest 2
      | S lead' => d :: group_thousands rest lead'
      end
  end.

Definition comma_int (n : Z) : string :=
  let digits := list_ascii_of_string (str_of_Z (Z.abs n)) in
  let grouped := group_thousands digits (S ((List.length digits - 1) mod 3)) in
  (if n <? 0 then "-" else "") ++ string_of_list_ascii grouped.

(** A process environment with buckaroo 1.2.0 installed and no port set.
    Its [str] and [format] cover the values that the scenarios print:
    str, int, bool and None. *)
Definition env_1_2_0 : Env :=
  mkEnv "/usr/bin/python3" "3.12.3 (main, Apr 10 2024) [GCC 13.2.0]" "/home/ana"
        (fun _ => None) (Some "1.2.0") "0123456789ab"
        (fun p => path_join "/home/ana" p)
        (fun v => match v with
                  | PyStr s => s
                  | PyInt n => str_of_Z n
                  | PyNone => "None"
                  | PyBool true => "True"
                  | PyBool false => "False"
                  | _ => "..."
                  end)
        (fun v => match v with
                  | PyInt n => inr (comma_int n)
                  | _ => inl TypeError
                  end).

Definition connection_refused : exn := URLError ConnectionRefusedError.

(** Nothing listens on the port and nothing ever will: every connection
    is refused.  Children get process ids from 7001 up and obey every
    signal; the server log holds the one line of a crash; the supervisor
    is process 4000, child of 3999. *)
Definition os_down : OS :=
  mkOS (fun _ _ _ => inl connection_refused)
       (fun _ => inl (OSError ConnectionResetError))
       (fun _ _ _ => None)
       (fun _ _ => None)
       (fun h _ => inr (7001 + Z.of_nat (List.length h)))
       (fun _ _ => None)
       (fun _ _ => None)
       (fun _ _ _ => WaitExited (-15))
       (fun _ _ => None)
       (fun _ _ => true)
       (fun _ _ => inr ["OSError: [Errno 98] Address already in use" ++ nl])
       (fun _ => 3999)
       4000.

(** The same machine, but the parent of the supervisor dies after the
    watcher has looked twice: once six system calls are behind it, the
    supervisor is a child of process 1. *)
Definition os_orphaned : OS :=
  mkOS (ans_urlopen os_down) (ans_read os_down) (ans_kill os_down)
       (ans_open_append os_down) (ans_popen os_down) (ans_poll os_down)
       (ans_terminate os_down) (ans_wait os_down) (ans_proc_kill os_down)
       (ans_isfile os_down) (ans_readlines os_down)
       (fun h => if (List.length h <? 6)%nat then 3999 else 1)
       4000.

(** A proxy answers on the port with status 200 and an HTML page. *)
Definition os_bad_gateway : OS :=
  mkOS (fun _ _ _ => inr 200)
       (fun _ => inr (Malformed "<html>502 Bad Gateway</html>"))
       (ans_kill os_down)
       (ans_open_append os_down) (ans_popen os_down) (ans_poll os_down)
       (ans_terminate os_down) (ans_wait os_down) (ans_proc_kill os_down)
       (ans_isfile os_down) (ans_readlines os_down)
       (ans_getppid os_down)
       4000.

(** The service of the scenario of C5 answers every probe. *)
Definition os_serving_501 : OS :=
  mkOS (fun _ _ _ => inr 200)
       (fun _ => inr (Parsed report_501))
       (ans_kill os_down)
       (ans_open_append os_down) (ans_popen os_down) (ans_poll os_down)
       (ans_terminate os_down) (ans_wait os_down) (ans_proc_kill os_down)
       (ans_isfile os_down) (ans_readlines os_down)
       (ans_getppid os_down)
       4000.

(** A server of version 1.1.0 runs as process 501 of another user: it
    answers every probe, and every signal sent to it is refused.  (The new
    server cannot bind the port and exits; the probes keep reaching the old
    one.) *)
Definition report_stale : pyval :=
  PyDict [("status", PyStr "ok"); ("pid", PyInt 501); ("version", PyStr "1.1.0")].

Definition os_stale : OS :=
  mkOS (fun _ _ _ => inr 200)
       (fun _ => inr (Parsed report_stale))
       (fun _ _ _ => Some PermissionError)
       (ans_open_append os_down) (ans_popen os_down) (ans_poll os_down)
       (ans_terminate os_down) (ans_wait os_down) (ans_proc_kill os_down)
       (ans_isfile os_down) (ans_readlines os_down)
       (ans_getppid os_down)
       4000.


(** An upgrade: the server of version 1.1.0 runs as process 501 and stops
    at the first signal; the server that is launched then reports version
    1.2.0 under its own process id, 7007. *)
Definition report_upgraded : pyval :=
  PyDict [("status", PyStr "ok"); ("pid", PyInt 7007); ("version", PyStr "1.2.0")].

Definition is_os_kill (ev : event) : bool :=
  match ev with
  | EvOsKill _ _ _ => true
  | _ => false
  end.

Definition os_upgrade : OS :=
  mkOS (fun h _ _ =>
          if existsb is_popen h then inr 200
          else if existsb is_os_kill h then inl connection_refused
          else inr 200)
       (fun h => if existsb is_popen h then inr (Parsed report_upgraded)
                 else inr (Parsed report_stale))
       (fun _ _ _ => None)
       (ans_open_append os_down) (ans_popen os_down) (ans_poll os_down)
       (ans_terminate os_down) (ans_wait os_down) (ans_proc_kill os_down)
       (ans_isfile os_down) (ans_readlines os_down)
       (ans_getppid os_down)
       4000.



(** The machine of [os_down] with a server log whose bytes are no text
    in the default encoding (a byte 0xFF, say): reading it raises
    [UnicodeDecodeError]. *)
Definition os_garbled_log : OS :=
  mkOS (ans_urlopen os_down) (ans_read os_down) (ans_kill os_down)
       (ans_open_append os_down) (ans_popen os_down) (ans_poll os_down)
       (ans_terminate os_down) (ans_wait os_down) (ans_proc_kill os_down)
       (fun _ _ => true)
       (fun _ _ => inl UnicodeDecodeError)
       (ans_getppid os_down)
       4000.

(** A first start: nothing listens on the port until a process has been
    started; from then on the new server (process 7003, the child that
    the launch on the freshly imported module starts) answers every
    probe with the expected version and with an uptime that moves on
    with every system call. *)
Definition report_fresh (h : list event) : pyval :=
  PyDict [("status", PyStr "ok"); ("pid", PyInt 7003); ("version", PyStr "1.2.0");
          ("uptime_s", PyInt (Z.of_nat (List.length h)))].

Definition os_fresh_start : OS :=
  mkOS (fun h _ _ => if existsb is_popen h then inr 200 else inl connection_refused)
       (fun h => inr (Parsed (report_fresh h)))
       (ans_kill os_down)
       (ans_open_append os_down) (ans_popen os_down) (ans_poll os_down)
       (ans_terminate os_down) (ans_wait os_down) (ans_proc_kill os_down)
       (ans_isfile os_down) (ans_readlines os_down)
       (ans_getppid os_down)
       4000.

(** The supervisor of [os_orphaned] with its two children running: the
    server 7002 and the watchdog 7003. *)
Definition world_orphaned_with_children : World :=
  mkWorld [] [] (Some (mkPopen 7002)) (Some (mkPopen 7003))
          Handler_signal_handler Handler_signal_handler.

(** * The rest of the module *)

From Stdlib Require DecimalPos.

(** ** Diagnostics (lines 138-146 and 332-396) *)

(** Sequencing of computations that only return or raise. *)
Definition ebind {A B} (r : exn + A) (k : A -> exn + B) : exn + B :=
  match r with
  | inl e => inl e
  | inr a => k a
  end.

(** [v > n] for an int literal [n]: numbers compare by value, any other
    operand gives [TypeError]. *)
Definition py_gt_int (v : pyval) (n : Z) : exn + bool :=
  match v with
  | PyBool b => inr ((if b then 1 else 0) >? n)
  | PyInt m => inr (m >? n)
  | PyFloat x => inr (negb (Qle_bool x (inject_Z n)))
  | _ => inl TypeError
  end.

(** Lines 360-365: the warning lines, one for each static file that is
    missing or empty. *)
Fixpoint diagnostics_warnings (items : list (string * pyval)) : exn + list string :=
  match items with
  | [] => inr []
  | (name, info) :: rest =>
      ebind (py_get info "exists" PyNone) (fun present =>
        if negb (truthy present) then
          ebind (diagnostics_warnings rest) (fun warnings =>
            inr (("  MISSING: " ++ name) :: warnings))
        else
          ebind (py_get info "size_bytes" (PyInt 0)) (fun size =>
            if py_eq_int size 0 then
              ebind (diagnostics_warnings rest) (fun warnings =>
                inr (("  EMPTY: " ++ name ++ " (0 bytes — will cause blank page)")
                       :: warnings))
            else diagnostics_warnings rest))
  end.

(** Lines 374-377: one line for each dependency. *)
Definition dependency_lines (deps : list (string * pyval)) : list string :=
  map (fun kv => "  " ++ fst kv ++ ": " ++ (if truthy (snd kv) then "installed" else "MISSING"))
      deps.

Section Diagnostics.

Variable os : OS.
Variable env : Env.
Variable SERVER_PORT : Z.

(** [json.dumps(v, indent=2)], whose result is only printed. *)
Variable json_dumps_indent2 : pyval -> string.

Definition diagnostics_request : request :=
  mkRequest (SERVER_URL SERVER_PORT ++ "/diagnostics") None [].

Definition _get_diagnostics : M pyval :=
  r <- try_except
         (status <- urlopen os diagnostics_request 5 ;;
          if status =? 200 then
            raw <- resp_read os ;;
            data <- json_loads raw ;;
            ret (Some data)
          else ret None)
         (fun e => isinstance_URLError e || isinstance_OSError e)
         (fun _ => ret None) ;;
  match r with
  | Some data => ret data
  | None => ret PyNone
  end.

(** Lines 367-371: one line for each static file, with its state and its
    size. *)
Fixpoint static_summary_lines (items : list (string * pyval)) : exn + list string :=
  match items with
  | [] => inr []
  | (name, info) :: rest =>
      ebind (py_get info "exists" PyNone) (fun present =>
      ebind (if truthy present then
               ebind (py_get info "size_bytes" (PyInt 0)) (fun size => py_gt_int size 0)
             else inr false) (fun ok =>
      ebind (py_get info "size_bytes" (PyInt 0)) (fun size =>
      ebind (py_format_comma env size) (fun size_text =>
      ebind (static_summary_lines rest) (fun lines =>
        inr (("  " ++ name ++ ": " ++ (if ok then "OK" else "PROBLEM") ++ " " ++
              "(" ++ size_text ++ " bytes)") :: lines))))))
  end.

Definition buckaroo_diagnostics : M string :=
  log INFO "buckaroo_diagnostics called" [] ;;
  health <- _health_check os SERVER_PORT ;;
  if negb (truthy health) then
    msg <- _format_startup_failure os env SERVER_PORT ;;
    ret ("Buckaroo server is NOT running." ++ nl ++ nl ++ msg)
  else
    diag <- _get_diagnostics ;;
    if negb (truthy diag) then
      server_pid <- lift (py_get health "pid" PyNone) ;;
      ret ("Server is running (pid=" ++ py_str env server_pid ++ ") but /diagnostics " ++
           "endpoint unavailable. Server may be an older version." ++ nl ++ nl ++
           "Health: " ++ json_dumps_indent2 health)
    else
      static_files <- lift (py_get diag "static_files" (PyDict [])) ;;
      items <- lift (py_items static_files) ;;
      warnings <- lift (diagnostics_warnings items) ;;
      summary_lines <- lift (static_summary_lines items) ;;
      let static_summary := str_join nl summary_lines in
      deps <- lift (py_get diag "dependencies" (PyDict [])) ;;
      dep_items <- lift (py_items deps) ;;
      let dep_lines := str_join nl (dependency_lines dep_items) in
      (* [diag] is a dict here: [diag.get] above went through. *)
      let field (key : string) : string :=
        match py_get diag key PyNone with
        | inr v => py_str env v
        | inl _ => ""
        end in
      let result :=
        "## Buckaroo Server Diagnostics" ++ nl ++ nl ++
        "Server: pid=" ++ field "pid" ++ " uptime=" ++ field "uptime_s" ++ "s" ++ nl ++
        "Python: " ++ field "python_version" ++ " (" ++ field "python_executable" ++ ")" ++ nl ++
        "Buckaroo: " ++ field "buckaroo_version" ++ nl ++
        "Tornado: " ++ field "tornado_version" ++ nl ++
        "Platform: " ++ field "platform" ++ nl ++ nl ++
        "### Static files" ++ nl ++ static_summary ++ nl ++ nl ++
        "### Dependencies" ++ nl ++ dep_lines ++ nl ++ nl ++
        "### Log files" ++ nl ++
        "  Log dir: " ++ field "log_dir" ++ nl ++
        "  Static path: " ++ field "static_path" ++ nl in
      match warnings with
      | [] => ret result
      | _ => ret (result ++ nl ++ "### WARNINGS" ++ nl ++ str_join nl warnings ++ nl)
      end.

End Diagnostics.

(** * Vocabulary of the further properties *)

(** The system calls of [_get_diagnostics]: the request with a timeout
    of 5 seconds, alone when it failed or was answered with another status
    than 200, and followed by the read of the body when it was answered
    with status 200. *)
Definition diagnostics_events (port : Z) (evs : list event) : Prop :=
  (exists ans,
     ans <> inr 200 /\
     evs = [EvUrlopen (diagnostics_request port) 5 ans]) \/
  (exists r,
     evs = [EvUrlopen (diagnostics_request port) 5 (inr 200); EvRead r]).

(** The escalation of [_cleanup_server], read along some system calls
    with [prev] the call before them: a [wait] comes right after a
    [terminate] of the same process that went through, and a [kill] right
    after a [wait] of 3 seconds on the same process that timed out. *)
Fixpoint escalates_in_order (prev : option event) (evs : list event) : bool :=
  match evs with
  | [] => true
  | ev :: rest =>
      match ev with
      | EvWait p _ _ =>
          match prev with
          | Some (EvTerminate p' None) => p =? p'
          | _ => false
          end
      | EvKill p _ =>
          match prev with
          | Some (EvWait p' timeout WaitTimeoutExpired) => (p =? p') && Qeq_bool timeout 3
          | _ => false
          end
      | _ => true
      end && escalates_in_order (Some ev) rest
  end.

(** The two process handles of the supervisor. *)
Definition handles (w : World) : option Popen * option Popen :=
  (_server_proc w, _server_monitor w).

(** [m] leaves the handles as they were, from any world. *)
Definition keeps_handles {A} (m : M A) : Prop :=
  forall w, handles (snd (m w)) = handles w.

Definition ready_log (i : Z) (server_pid : pyval) : log_record :=
  mkLog INFO "Server ready after %.1fs — pid=%s"
        [LVal (PyFloat (inject_Z (i + 1) * (1 # 4))); LVal server_pid].

Definition static_warning_log (missing : list string) : log_record :=
  mkLog WARNING "Static files missing or empty: %s — pages may be blank"
        [LVal (PyList (map PyStr missing))].

Definition view_called_log (path : string) : log_record :=
  mkLog INFO "view_data called — path=%s" [LVal (PyStr path)].

Definition ensure_server_failed_log (exc : exn) : log_record :=
  mkLog ERROR ("ensure_server failed:" ++ nl ++ "%s") [LExn exc].

(** System calls that only look: a request, the read of a body, the test
    for a file, the read of its lines. *)
Definition only_looks (ev : event) : Prop :=
  match ev with
  | EvUrlopen _ _ _ | EvRead _ | EvIsFile _ _ | EvReadLines _ _ => True
  | _ => False
  end.

(** The warning line that [buckaroo_diagnostics] writes for a static file
    is one of these two. *)
Definition warns_about (name line : string) : Prop :=
  line = "  MISSING: " ++ name \/
  line = "  EMPTY: " ++ name ++ " (0 bytes — will cause blank page)".




(** * Further scenarios *)

(** The server of the supervisor has crashed: [poll] reports exit code 1. *)
Definition os_crashed : OS :=
  mkOS (ans_urlopen os_down) (ans_read os_down) (ans_kill os_down)
       (ans_open_append os_down) (ans_popen os_down)
       (fun _ _ => Some 1)
       (ans_terminate os_down) (ans_wait os_down) (ans_proc_kill os_down)
       (ans_isfile os_down) (ans_readlines os_down) (ans_getppid os_down)
       4000.

(** A supervisor that has started server 7005 and watchdog 7006. *)
Definition world_with_children : World :=
  mkWorld [] [] (Some (mkPopen 7005)) (Some (mkPopen 7006))
          Handler_signal_handler Handler_signal_handler.

(** The watchdog of server 7005 runs as process 7006. *)
Definition os_watchdog : OS :=
  mkOS (ans_urlopen os_down) (ans_read os_down)
       (fun _ _ _ => Some ProcessLookupError)
       (ans_open_append os_down) (ans_popen os_down) (ans_poll os_down)
       (ans_terminate os_down) (ans_wait os_down) (ans_proc_kill os_down)
       (ans_isfile os_down) (ans_readlines os_down) (ans_getppid os_down)
       7006.

(** The machine of [os_down] out of processes once the server runs: the
    watchdog cannot be started. *)
Definition os_no_watchdog : OS :=
  mkOS (ans_urlopen os_down) (ans_read os_down) (ans_kill os_down)
       (ans_open_append os_down)
       (fun _ args =>
          match args with
          | [_; "-c"; _] => inl EOther
          | _ => inr 7005
          end)
       (ans_poll os_down) (ans_terminate os_down) (ans_wait os_down)
       (ans_proc_kill os_down) (ans_isfile os_down) (ans_readlines os_down)
       (ans_getppid os_down)
       4000.

(** The log directory cannot be written. *)
Definition os_readonly_logs : OS :=
  mkOS (ans_urlopen os_down) (ans_read os_down) (ans_kill os_down)
       (fun _ _ => Some PermissionError)
       (ans_popen os_down) (ans_poll os_down) (ans_terminate os_down)
       (ans_wait os_down) (ans_proc_kill os_down) (ans_isfile os_down)
       (ans_readlines os_down) (ans_getppid os_down)
       4000.

(** A freshly started server whose page assets are broken: the script is
    empty and the style sheet is missing. *)
Definition report_blank_page : pyval :=
  PyDict [("status", PyStr "ok"); ("pid", PyInt 7005); ("version", PyStr "1.2.0");
          ("static_files",
           PyDict [("standalone.js", PyDict [("exists", PyBool true); ("size_bytes", PyInt 0)]);
                   ("standalone.css", PyDict [("exists", PyBool false)]);
                   ("index.html", PyDict [("exists", PyBool true); ("size_bytes", PyInt 512)])])].

Definition os_blank_page : OS :=
  mkOS (fun _ _ _ => inr 200)
       (fun _ => inr (Parsed report_blank_page))
       (ans_kill os_down)
       (ans_open_append os_down) (ans_popen os_down) (ans_poll os_down)
       (ans_terminate os_down) (ans_wait os_down) (ans_proc_kill os_down)
       (ans_isfile os_down) (ans_readlines os_down) (ans_getppid os_down)
       4000.

(** Something answers the health endpoint with an empty JSON object. *)
Definition os_empty_report : OS :=
  mkOS (fun _ _ _ => inr 200)
       (fun _ => inr (Parsed (PyDict [])))
       (ans_kill os_down)
       (ans_open_append os_down) (ans_popen os_down) (ans_poll os_down)
       (ans_terminate os_down) (ans_wait os_down) (ans_proc_kill os_down)
       (ans_isfile os_down) (ans_readlines os_down) (ans_getppid os_down)
       4000.

(** The service of C5 with a file loaded: the load request is answered
    with the shape of the table. *)
Definition load_result : pyval :=
  PyDict [("rows", PyInt 1234);
          ("columns", PyList [PyDict [("name", PyStr "city"); ("dtype", PyStr "str")];
                              PyDict [("name", PyStr "sales"); ("dtype", PyStr "int64")]]);
          ("session", PyStr "0123456789ab");
          ("browser_action", PyStr "opened");
          ("server_pid", PyInt 501)].

Definition os_loading : OS :=
  mkOS (fun _ _ _ => inr 200)
       (fun h => match last h EvStdinRead with
                 | EvUrlopen (mkRequest _ (Some _) _) _ _ => inr (Parsed load_result)
                 | _ => inr (Parsed report_501)
                 end)
       (ans_kill os_down)
       (ans_open_append os_down) (ans_popen os_down) (ans_poll os_down)
       (ans_terminate os_down) (ans_wait os_down) (ans_proc_kill os_down)
       (ans_isfile os_down) (ans_readlines os_down) (ans_getppid os_down)
       4000.

(** The same service refusing a file it cannot find. *)
Definition os_load_refused : OS :=
  mkOS (fun _ req _ => match req_data req with
                       | Some _ => inl (HTTPError 404)
                       | None => inr 200
                       end)
       (fun _ => inr (Parsed report_501))
       (ans_kill os_down)
       (ans_open_append os_down) (ans_popen os_down) (ans_poll os_down)
       (ans_terminate os_down) (ans_wait os_down) (ans_proc_kill os_down)
       (ans_isfile os_down) (ans_readlines os_down) (ans_getppid os_down)
       4000.

(** An older server: it answers the health probe with the report of C5
    and has no [/diagnostics] endpoint. *)
Definition os_no_diagnostics : OS :=
  mkOS (fun _ req _ =>
          if (req_url req =? "http://localhost:8700/health")%string then inr 200
          else inl (HTTPError 404))
       (fun _ => inr (Parsed report_501))
       (ans_kill os_down)
       (ans_open_append os_down) (ans_popen os_down) (ans_poll os_down)
       (ans_terminate os_down) (ans_wait os_down) (ans_proc_kill os_down)
       (ans_isfile os_down) (ans_readlines os_down) (ans_getppid os_down)
       4000.

(** A stand-in for [json.dumps(v, indent=2)] in the scenarios. *)
Definition dumps_placeholder (v : pyval) : string := "{...}".

(** * Properties *)

(** ** Reasoning about computations *)

Ltac unfold_prims :=
  unfold bind, get_world, try_except, urlopen, resp_read, json_loads,
    time_sleep, os_getpid, os_getppid, os__exit, open_append,
    subprocess_Popen, Popen_poll, Popen_terminate, Popen_wait, Popen_kill,
    os_path_isfile, open_readlines, stdin_read, ask, lift, oserr_opt,
    oserr_to_exn, log, set_server_proc, set_server_monitor, ret, raise in *.

(** Case analysis on the next answer of the oracle. *)
Ltac answer :=
  match goal with
  | |- context [ans_poll ?o ?h ?p] => destruct (ans_poll o h p) eqn:?
  | |- context [ans_terminate ?o ?h ?p] => destruct (ans_terminate o h p) eqn:?
  | |- context [ans_wait ?o ?h ?p ?t] => destruct (ans_wait o h p t) eqn:?
  | |- context [ans_proc_kill ?o ?h ?p] => destruct (ans_proc_kill o h p) eqn:?
  end.

(** ** Cleanup *)

(** Whatever the processes do, cleanup returns normally and leaves both
    handles cleared. *)
Lemma cleanup_server_clears (os : OS) (w : World) :
  exists w',
    _cleanup_server os w = (Returned tt, w') /\
    _server_proc w' = None /\ _server_monitor w' = None.
Proof.
  unfold _cleanup_server. unfold_prims.
  destruct w as [h l sp sm dt di]; simpl.
  destruct sp as [proc|]; destruct sm as [mon|]; cbn;
    repeat (answer; cbn); eauto.
Qed.

(** Cleanup calls [terminate()] on the children that are there to be
    terminated, the server first, and on nothing else. *)
Lemma cleanup_server_terminates_children (os : OS) (w : World) :
  exists w' evs,
    _cleanup_server os w = (Returned tt, w') /\
    history w' = (history w ++ evs)%list /\
    terminated evs = children_to_terminate os w /\
    _server_proc w' = None /\ _server_monitor w' = None.
Proof.
  unfold _cleanup_server, children_to_terminate. unfold_prims.
  destruct w as [h l sp sm dt di]; simpl.
  destruct sp as [proc|]; destruct sm as [mon|]; cbn;
    repeat (answer; cbn);
    (eexists; eexists; split; [reflexivity |]; cbn; split;
     [first [rewrite <- ?app_assoc; reflexivity | symmetry; apply app_nil_r] |]);
    cbn; auto.
Qed.

(** With both handles cleared, cleanup touches nothing. *)
Lemma cleanup_server_nothing_to_do (os : OS) (w : World) :
  _server_proc w = None -> _server_monitor w = None ->
  _cleanup_server os w = (Returned tt, w).
Proof.
  intros Hp Hm. unfold _cleanup_server. unfold_prims.
  destruct w as [h l sp sm dt di]; simpl in *. subst. reflexivity.
Qed.

(** Cleanup leaves the signal dispositions alone. *)
Lemma cleanup_server_dispositions (os : OS) (w : World) :
  disp_SIGTERM (snd (_cleanup_server os w)) = disp_SIGTERM w /\
  disp_SIGINT (snd (_cleanup_server os w)) = disp_SIGINT w.
Proof.
  unfold _cleanup_server. unfold_prims.
  destruct w as [h l sp sm dt di]; simpl.
  destruct sp as [proc|]; destruct sm as [mon|]; cbn;
    repeat (answer; cbn); auto.
Qed.

(** A server that has already exited gets no signal and no wait: the
    liveness check [poll() is None] guards them. *)
Lemma cleanup_server_skips_exited_server (os : OS) (w : World) (proc : Popen) (rc : Z) :
  _server_proc w = Some proc -> _server_monitor w = None ->
  ans_poll os (history w) (pid proc) = Some rc ->
  history (snd (_cleanup_server os w)) = (history w ++ [EvPoll (pid proc) (Some rc)])%list.
Proof.
  intros Hp Hm Hpoll. unfold _cleanup_server. unfold_prims.
  destruct w as [h l sp sm dt di]; simpl in *. subst. cbn.
  rewrite Hpoll. reflexivity.
Qed.

(** C6: [_cleanup_server] is idempotent.  From every state and for every
    behaviour of the processes, the first call returns with both handles
    set to [None], and a second call right after it returns the very same
    world: no signal, no wait, no other system call, both handles still
    [None]. *)
Theorem cleanup_server_idempotent (os : OS) (w : World) :
  exists w1,
    _cleanup_server os w = (Returned tt, w1) /\
    _server_proc w1 = None /\
    _server_monitor w1 = None /\
    _cleanup_server os w1 = (Returned tt, w1).
Proof.
  destruct (cleanup_server_clears os w) as (w1 & Hrun & Hp & Hm).
  exists w1. repeat split; auto using cleanup_server_nothing_to_do.
Qed.

(** ** The signal handler *)

Lemma as_pid_of_pid (p : Z) : is_pid p -> as_pid (PyInt p) = inr p.
Proof.
  unfold is_pid, as_pid. intros [Hlo Hhi].
  assert (H1 : (- 2 ^ 31 <=? p) = true) by (apply Z.leb_le; lia).
  assert (H2 : (p <? 2 ^ 31) = true) by (apply Z.ltb_lt; lia).
  rewrite H1, H2. reflexivity.
Qed.

(** A normal exit runs [_cleanup_server] and nothing else. *)
Lemma normal_exit_is_cleanup (os : OS) (w : World) :
  normal_exit os w = _cleanup_server os w.
Proof.
  unfold normal_exit, atexit_handlers. simpl. unfold bind, ret.
  destruct (_cleanup_server os w) as [[[]| | | | |] w']; reflexivity.
Qed.

(** The import installs the handler for each registered signal. *)
Lemma handler_installed_at_import (env : Env) (port : Z) (sig : signal) :
  In sig registered_signals ->
  get_disposition (imported_world env port) sig = Handler_signal_handler.
Proof.
  intros [<- | [<- | []]]; reflexivity.
Qed.

(** A signal with the handler installed runs the handler. *)
Lemma receive_signal_runs_handler (os : OS) (sig : signal) (w : World) :
  get_disposition w sig = Handler_signal_handler ->
  receive_signal os sig w = _signal_handler os sig w.
Proof.
  intros H. unfold receive_signal. rewrite H. reflexivity.
Qed.

(** C7: for SIGTERM and for SIGINT, [_signal_handler] first runs the
    cleanup of a normal exit (the [atexit] routine, [_cleanup_server]),
    then sets the disposition of that signal back to the default, reads its
    own process id and sends the same signal to it; the process then dies
    of that signal. *)
Theorem signal_handler_cleans_up_then_redelivers (os : OS) (sig : signal) (w : World) :
  In sig registered_signals ->
  is_pid (ans_getpid os) ->
  exists w1,
    normal_exit os (record_log (signal_received_log sig) w) = (Returned tt, w1) /\
    _signal_handler os sig w =
      (Killed sig,
       record_event (EvOsKill (ans_getpid os) sig None)
         (record_event (EvGetpid (ans_getpid os))
            (with_disposition sig SIG_DFL
               (record_event (EvSignal sig SIG_DFL) w1)))).
Proof.
  intros Hsig Hme.
  destruct (cleanup_server_clears os (record_log (signal_received_log sig) w))
    as (w1 & Hrun & _ & _).
  exists w1. split.
  - rewrite normal_exit_is_cleanup. exact Hrun.
  - unfold _signal_handler, bind at 1, log.
    fold (signal_received_log sig).
    unfold bind at 1. rewrite Hrun.
    destruct Hsig as [<- | [<- | []]];
      unfold signal_signal, bind, os_getpid, ask, os_kill, lift, ret;
      cbn [fst snd history record_event with_disposition];
      rewrite (as_pid_of_pid _ Hme); unfold bind, deliver_to_self;
      rewrite Z.eqb_refl; reflexivity.
Qed.

(** The handler at work on the freshly imported module, for SIGTERM. *)
Lemma signal_handler_cleans_up_then_redelivers_witness :
  In SIGTERM registered_signals /\ is_pid 4000 /\
  exists w1,
    normal_exit os_down
      (record_log (signal_received_log SIGTERM) (imported_world env_1_2_0 8700))
      = (Returned tt, w1) /\
    _signal_handler os_down SIGTERM (imported_world env_1_2_0 8700) =
      (Killed SIGTERM,
       record_event (EvOsKill 4000 SIGTERM None)
         (record_event (EvGetpid 4000)
            (with_disposition SIGTERM SIG_DFL
               (record_event (EvSignal SIGTERM SIG_DFL) w1)))).
Proof.
  assert (Hin : In SIGTERM registered_signals) by (simpl; auto).
  assert (Hpid : is_pid 4000) by (unfold is_pid; lia).
  split; [exact Hin | split; [exact Hpid |]].
  exact (signal_handler_cleans_up_then_redelivers os_down SIGTERM
           (imported_world env_1_2_0 8700) Hin Hpid).
Defined.

(** ** The parent watcher *)

Lemma watcher_step_quiet (os : OS) (fuel : nat) (original : Z) (w : World) :
  ppid_seen os w = original ->
  _watcher os (S fuel) original w = _watcher os fuel original (watcher_round os w).
Proof.
  intros Hsame. cbn [_watcher]. unfold_prims.
  fold (watcher_sleeps w). fold (ppid_seen os w). fold (watcher_round os w).
  rewrite Hsame, Z.eqb_refl. reflexivity.
Qed.

Lemma watcher_step_detect (os : OS) (fuel : nat) (original : Z) (w : World) :
  ppid_seen os w <> original ->
  exists w1,
    _cleanup_server os
      (record_log (parent_changed_log original (ppid_seen os w)) (watcher_round os w))
      = (Returned tt, w1) /\
    _watcher os (S fuel) original w = (Exited 0, record_event (EvExit 0) w1).
Proof.
  intros Hdiff.
  destruct (cleanup_server_clears os
              (record_log (parent_changed_log original (ppid_seen os w))
                          (watcher_round os w))) as (w1 & Hrun & _ & _).
  exists w1. split; [exact Hrun |].
  cbn [_watcher]. unfold bind at 1, time_sleep. fold (watcher_sleeps w).
  unfold bind at 1, os_getppid, ask. fold (ppid_seen os w). fold (watcher_round os w).
  apply Z.eqb_neq in Hdiff. rewrite Hdiff. cbn [negb].
  unfold bind at 1. unfold bind at 1, log. fold (parent_changed_log original (ppid_seen os w)).
  unfold bind at 1. rewrite Hrun. reflexivity.
Qed.

Lemma watcher_detects (os : OS) (original : Z) (k : nat) :
  forall (fuel : nat) (w : World),
    (k < fuel)%nat ->
    (forall j, (j < k)%nat -> ppid_seen os (watcher_rounds os j w) = original) ->
    ppid_seen os (watcher_rounds os k w) <> original ->
    exists w1,
      _cleanup_server os
        (record_log (parent_changed_log original (ppid_seen os (watcher_rounds os k w)))
                    (watcher_rounds os (S k) w))
        = (Returned tt, w1) /\
      _watcher os fuel original w = (Exited 0, record_event (EvExit 0) w1).
Proof.
  induction k as [|k IH]; intros fuel w Hfuel Hquiet Hdiff.
  - destruct fuel as [|fuel]; [lia |]. cbn [watcher_rounds] in *.
    apply watcher_step_detect. exact Hdiff.
  - destruct fuel as [|fuel]; [lia |].
    rewrite watcher_step_quiet by (apply (Hquiet 0%nat); lia).
    cbn [watcher_rounds] in Hdiff |- *.
    apply IH; [lia | | exact Hdiff].
    intros j Hj. apply (Hquiet (S j)). lia.
Qed.

(** While the parent stays the same the watcher keeps polling: it only
    stops for lack of fuel, after [fuel] quiet rounds. *)
Lemma watcher_keeps_polling (os : OS) (original : Z) (fuel : nat) :
  forall (w : World),
    (forall j, (j < fuel)%nat -> ppid_seen os (watcher_rounds os j w) = original) ->
    _watcher os fuel original w = (OutOfFuel, watcher_rounds os fuel w).
Proof.
  induction fuel as [|fuel IH]; intros w Hquiet.
  - reflexivity.
  - rewrite watcher_step_quiet by (apply (Hquiet 0%nat); lia).
    cbn [watcher_rounds]. apply IH.
    intros j Hj. apply (Hquiet (S j)). lia.
Qed.

(** The quiet rounds of the watcher leave the process handles alone. *)
Lemma watcher_rounds_handles (os : OS) (k : nat) :
  forall w,
    _server_proc (watcher_rounds os k w) = _server_proc w /\
    _server_monitor (watcher_rounds os k w) = _server_monitor w.
Proof.
  induction k as [|k IH]; intros w; cbn [watcher_rounds]; [auto |].
  destruct (IH (watcher_round os w)) as [Hp Hm]. rewrite Hp, Hm. auto.
Qed.

(** C9: the parent watcher reads the parent process id once when it
    starts, then sleeps one second and reads it again, round after round.
    In the first round in which the id differs from the recorded one
    (after [k] quiet rounds, for any [k]) it runs [_cleanup_server], the
    routine of a normal shutdown, on the handles that the supervisor held
    when the watcher started: [terminate()] is called on the server, when
    its handle is set and it is still running, and then on the watchdog,
    when its handle is set, and on nothing else, and both handles end up
    cleared.  Then it ends the process with [os._exit(0)]: the exit is
    the last thing the process does. *)
Theorem parent_watcher_exits_when_orphaned (os : OS) (k fuel : nat) (w : World) :
  let original := ans_getppid os (history w) in
  let w0 := watcher_started os w in
  let wc := record_log (parent_changed_log original (ppid_seen os (watcher_rounds os k w0)))
                       (watcher_rounds os (S k) w0) in
  (k < fuel)%nat ->
  (forall j, (j < k)%nat -> ppid_seen os (watcher_rounds os j w0) = original) ->
  ppid_seen os (watcher_rounds os k w0) <> original ->
  exists w1 evs,
    normal_exit os wc = (Returned tt, w1) /\
    _server_proc wc = _server_proc w /\
    _server_monitor wc = _server_monitor w /\
    history w1 = (history wc ++ evs)%list /\
    terminated evs = children_to_terminate os wc /\
    _server_proc w1 = None /\
    _server_monitor w1 = None /\
    _start_parent_watcher os fuel w = (Exited 0, record_event (EvExit 0) w1).
Proof.
  intros original w0 wc Hfuel Hquiet Hdiff.
  destruct (watcher_detects os original k fuel w0 Hfuel Hquiet Hdiff) as (w1 & Hrun & Hexit).
  fold wc in Hrun.
  destruct (cleanup_server_terminates_children os wc)
    as (w1' & evs & Hrun' & Hhist & Hterm & Hproc & Hmon).
  rewrite Hrun in Hrun'. injection Hrun' as <-.
  destruct (watcher_rounds_handles os (S k) w0) as [Hp0 Hm0].
  exists w1, evs.
  split; [rewrite normal_exit_is_cleanup; exact Hrun |].
  split; [exact Hp0 |]. split; [exact Hm0 |].
  repeat (split; [assumption |]).
  unfold _start_parent_watcher. unfold bind at 1, os_getppid, ask.
  unfold bind at 1, log. exact Hexit.
Qed.

(** Two quiet rounds, then the parent is gone: the third round calls
    [terminate()] on the server 7002 and on the watchdog 7003, and
    exits. *)
Lemma parent_watcher_exits_when_orphaned_witness :
  let w0 := watcher_started os_orphaned world_orphaned_with_children in
  let wc := record_log (parent_changed_log 3999 1) (watcher_rounds os_orphaned 3 w0) in
  exists w1 evs,
    normal_exit os_orphaned wc = (Returned tt, w1) /\
    _server_proc wc = Some (mkPopen 7002) /\
    _server_monitor wc = Some (mkPopen 7003) /\
    history w1 = (history wc ++ evs)%list /\
    terminated evs = [7002; 7003] /\
    _server_proc w1 = None /\
    _server_monitor w1 = None /\
    _start_parent_watcher os_orphaned 10 world_orphaned_with_children
      = (Exited 0, record_event (EvExit 0) w1).
Proof.
  refine (parent_watcher_exits_when_orphaned os_orphaned 2 10
            world_orphaned_with_children _ _ _).
  - lia.
  - intros j Hj.
    destruct j as [|[|j]]; [reflexivity | reflexivity | lia].
  - vm_compute. discriminate.
Defined.

(** ** The health probe *)

Section HealthCheck.

Variable os : OS.
Variable port : Z.

(** A 200 response with a JSON body: the decoded value is returned. *)
Lemma health_check_returns_report (w : World) (data : pyval) :
  ans_urlopen os (history w) (health_request port) 2 = inr 200 ->
  ans_read os (history (request_sent port w (inr 200))) = inr (Parsed data) ->
  _health_check os port w =
    (Returned data,
     record_log (health_ok_log data)
       (record_event (EvRead (inr (Parsed data))) (request_sent port w (inr 200)))).
Proof.
  intros Hopen Hread. unfold _health_check. unfold_prims.
  cbn. rewrite Hopen. cbn. unfold request_sent in Hread. cbn in Hread.
  rewrite Hread. reflexivity.
Qed.

(** The request fails with an [OSError] (a refused connection, a
    timeout, an HTTP error status): [None] is returned. *)
Lemma health_check_absent_on_failure (w : World) (e : exn) :
  ans_urlopen os (history w) (health_request port) 2 = inl e ->
  isinstance_OSError e = true ->
  _health_check os port w =
    (Returned PyNone, record_log (health_failed_log e) (request_sent port w (inl e))).
Proof.
  intros Hopen Hos. unfold _health_check. unfold_prims.
  cbn. rewrite Hopen. cbn. rewrite Hos, orb_true_r. reflexivity.
Qed.

(** A response with another status: [None] is returned, the body is not
    read. *)
Lemma health_check_absent_on_other_status (w : World) (status : Z) :
  ans_urlopen os (history w) (health_request port) 2 = inr status ->
  status <> 200 ->
  _health_check os port w = (Returned PyNone, request_sent port w (inr status)).
Proof.
  intros Hopen Hstatus. unfold _health_check. unfold_prims.
  cbn. rewrite Hopen. cbn. apply Z.eqb_neq in Hstatus. rewrite Hstatus.
  reflexivity.
Qed.

(** The connection breaks while the body is read: [None] is returned. *)
Lemma health_check_absent_on_read_failure (w : World) (e : exn) :
  ans_urlopen os (history w) (health_request port) 2 = inr 200 ->
  ans_read os (history (request_sent port w (inr 200))) = inl e ->
  isinstance_OSError e = true ->
  _health_check os port w =
    (Returned PyNone,
     record_log (health_failed_log e)
       (record_event (EvRead (inl e)) (request_sent port w (inr 200)))).
Proof.
  intros Hopen Hread Hos. unfold _health_check. unfold_prims.
  cbn. rewrite Hopen. cbn. unfold request_sent in Hread. cbn in Hread.
  rewrite Hread. cbn. rewrite Hos, orb_true_r. reflexivity.
Qed.

(** C1: on a 200 response whose body is not valid JSON, [json.loads]
    raises [JSONDecodeError]; it is a [ValueError], which the clause
    [except (URLError, OSError)] does not catch, so [_health_check] raises
    it to its caller and does not return [None]. *)
Theorem health_check_malformed_body_raises (w : World) (raw : string) :
  ans_urlopen os (history w) (health_request port) 2 = inr 200 ->
  ans_read os (history (request_sent port w (inr 200))) = inr (Malformed raw) ->
  _health_check os port w =
    (Raised JSONDecodeError,
     record_event (EvRead (inr (Malformed raw))) (request_sent port w (inr 200))).
Proof.
  intros Hopen Hread. unfold _health_check. unfold_prims.
  cbn. rewrite Hopen. cbn. unfold request_sent in Hread. cbn in Hread.
  rewrite Hread. reflexivity.
Qed.

(** A probe makes the system calls of [probe_events] and no other. *)
Lemma health_check_events (w : World) :
  exists evs,
    history (snd (_health_check os port w)) = (history w ++ evs)%list /\
    probe_events port evs.
Proof.
  unfold _health_check, probe_events. unfold_prims. cbn.
  destruct (ans_urlopen os (history w) (health_request port) 2) as [e|status] eqn:Hopen; cbn.
  - exists [EvUrlopen (health_request port) 2 (inl e)].
    split; [| eexists; left; reflexivity].
    destruct (isinstance_URLError e || isinstance_OSError e); reflexivity.
  - destruct (status =? 200) eqn:Hs; cbn.
    + match goal with
      | |- context [ans_read os ?h] => destruct (ans_read os h) as [e|[data|raw]] eqn:Hread
      end; cbn;
        (eexists [_; _]; split; [| eexists; right; eexists; reflexivity]);
        try destruct (isinstance_URLError e || isinstance_OSError e);
        cbn; rewrite <- app_assoc; reflexivity.
    + exists [EvUrlopen (health_request port) 2 (inr status)].
      split; [reflexivity | eexists; left; reflexivity].
Qed.

Lemma health_check_extends (w : World) (o : outcome pyval) (w' : World) :
  _health_check os port w = (o, w') -> extends w w'.
Proof.
  intros Hrun. destruct (health_check_events w) as (evs & Hh & _).
  rewrite Hrun in Hh. exists evs. exact Hh.
Qed.

(** A probe touches neither handle. *)
Lemma health_check_keeps_handles (w : World) :
  _server_proc (snd (_health_check os port w)) = _server_proc w /\
  _server_monitor (snd (_health_check os port w)) = _server_monitor w.
Proof.
  unfold _health_check. unfold_prims. cbn.
  destruct (ans_urlopen os (history w) (health_request port) 2) as [e|status]; cbn.
  - destruct (isinstance_URLError e || isinstance_OSError e); auto.
  - destruct (status =? 200); cbn; auto.
    match goal with
    | |- context [ans_read os ?h] => destruct (ans_read os h) as [e|[data|raw]]
    end; cbn; auto.
    destruct (isinstance_URLError e || isinstance_OSError e); auto.
Qed.

(** A probe that returns a true value has just read it: a 200 response
    with that value as its body. *)
Lemma health_check_report_is_last (w : World) (v : pyval) (w' : World) :
  _health_check os port w = (Returned v, w') ->
  truthy v = true ->
  last_report (history w') = Some v.
Proof.
  unfold _health_check. unfold_prims. cbn.
  destruct (ans_urlopen os (history w) (health_request port) 2) as [e|status]; cbn.
  - destruct (isinstance_URLError e || isinstance_OSError e); cbn;
      intros [= <- <-]; discriminate.
  - destruct (status =? 200); cbn; [| intros [= <- <-]; discriminate].
    match goal with
    | |- context [ans_read os ?h] => destruct (ans_read os h) as [e|[data|raw]]
    end; cbn.
    + destruct (isinstance_URLError e || isinstance_OSError e); cbn;
        intros [= <- <-]; discriminate.
    + intros [= <- <-] _. cbn. unfold last_report.
      rewrite last_last. reflexivity.
    + discriminate.
Qed.

End HealthCheck.

(** The proxy of [os_bad_gateway] makes the probe raise. *)
Lemma health_check_malformed_body_raises_witness :
  _health_check os_bad_gateway 8700 (imported_world env_1_2_0 8700) =
    (Raised JSONDecodeError,
     record_event (EvRead (inr (Malformed "<html>502 Bad Gateway</html>")))
       (record_event (EvUrlopen (health_request 8700) 2 (inr 200))
          (imported_world env_1_2_0 8700))).
Proof.
  exact (health_check_malformed_body_raises os_bad_gateway 8700
           (imported_world env_1_2_0 8700) "<html>502 Bad Gateway</html>"
           eq_refl eq_refl).
Defined.

(** ** Reusing a running server *)

Lemma bind_returned {A B} (m : M A) (k : A -> M B) (w : World) (b : B) (w' : World) :
  bind m k w = (Returned b, w') ->
  exists a w1, m w = (Returned a, w1) /\ k a w1 = (Returned b, w').
Proof.
  unfold bind. destruct (m w) as [[a| | | | |] w1]; try discriminate.
  intros H. exists a, w1. auto.
Qed.

Lemma lift_returned {A} (r : exn + A) (w : World) (a : A) (w' : World) :
  lift r w = (Returned a, w') -> r = inr a /\ w' = w.
Proof.
  destruct r as [e|x]; cbn; [discriminate |]. intros [= -> ->]. auto.
Qed.

Section Reuse.

Variable os : OS.
Variable env : Env.
Variable port : Z.

(** A probe that returns a report of the expected version makes
    [ensure_server] return at once with status "reused". *)
Lemma reuse_on_matching_report (w w1 : World) (report : list (string * pyval)) (version : pyval) :
  _health_check os port w = (Returned (PyDict report), w1) ->
  report <> [] ->
  py_get (PyDict report) "version" (PyStr "unknown") = inr version ->
  py_eq_str version (expected_version env) = true ->
  exists server_pid uptime,
    py_get (PyDict report) "pid" PyNone = inr server_pid /\
    py_get (PyDict report) "uptime_s" (PyInt 0) = inr uptime /\
    ensure_server os env port w =
      (Returned (server_info "reused" server_pid uptime),
       record_log (reused_log version server_pid uptime) w1).
Proof.
  intros Hprobe Hne Hversion Hmatch.
  destruct (py_get (PyDict report) "pid" PyNone) as [e|server_pid] eqn:Hpid;
    [discriminate |].
  destruct (py_get (PyDict report) "uptime_s" (PyInt 0)) as [e|uptime] eqn:Hup;
    [discriminate |].
  exists server_pid, uptime. repeat split.
  unfold ensure_server, ensure_server_reconcile.
  unfold bind at 1. unfold bind at 1. rewrite Hprobe.
  assert (Htruthy : truthy (PyDict report) = true) by (destruct report; [congruence | reflexivity]).
  rewrite Htruthy.
  unfold bind at 1. rewrite Hversion. cbn [lift ret]. rewrite Hmatch.
  unfold bind at 1. rewrite Hpid. cbn [lift ret].
  unfold bind at 1. rewrite Hup. cbn [lift ret].
  reflexivity.
Qed.

(** C5: when the probe returns the report with status "ok", pid 501 and
    version "1.2.0" and the expected version is "1.2.0", [ensure_server]
    returns the dict with status "reused" and pid 501 (the report has no
    uptime, so the uptime is 0); it makes no system call beyond those of
    the probe, hence starts no process, and leaves both process handles
    as they were. *)
Theorem ensure_server_reuses_pid_501 (w w1 : World) :
  buckaroo_version env = Some "1.2.0" ->
  _health_check os port w = (Returned report_501, w1) ->
  exists w2 evs,
    ensure_server os env port w =
      (Returned (PyDict [("server_status", PyStr "reused");
                         ("server_pid", PyInt 501);
                         ("server_uptime_s", PyInt 0)]), w2) /\
    history w2 = (history w ++ evs)%list /\
    probe_events port evs /\
    count_popen evs = 0%nat /\
    _server_proc w2 = _server_proc w /\
    _server_monitor w2 = _server_monitor w.
Proof.
  intros Hexpected Hprobe.
  destruct (reuse_on_matching_report w w1 _ (PyStr "1.2.0") Hprobe) as (p & u & Hp & Hu & Hrun).
  - discriminate.
  - reflexivity.
  - unfold expected_version. rewrite Hexpected. reflexivity.
  - cbn in Hp, Hu. injection Hp as <-. injection Hu as <-.
    destruct (health_check_events os port w) as (evs & Hhist & Hevs).
    destruct (health_check_keeps_handles os port w) as (Hproc & Hmon).
    rewrite Hprobe in Hhist, Hproc, Hmon. cbn [snd] in *.
    eexists; exists evs. split; [exact Hrun |].
    cbn. repeat split; auto.
    destruct Hevs as (ans & [-> | (r & ->)]); reflexivity.
Qed.

End Reuse.

(** The scenario of C5 on the freshly imported module. *)
Lemma ensure_server_reuses_pid_501_witness :
  exists w2 evs,
    ensure_server os_serving_501 env_1_2_0 8700 (imported_world env_1_2_0 8700) =
      (Returned (PyDict [("server_status", PyStr "reused");
                         ("server_pid", PyInt 501);
                         ("server_uptime_s", PyInt 0)]), w2) /\
    history w2 = (history (imported_world env_1_2_0 8700) ++ evs)%list /\
    probe_events 8700 evs /\
    count_popen evs = 0%nat /\
    _server_proc w2 = _server_proc (imported_world env_1_2_0 8700) /\
    _server_monitor w2 = _server_monitor (imported_world env_1_2_0 8700).
Proof.
  refine (ensure_server_reuses_pid_501 os_serving_501 env_1_2_0 8700
            (imported_world env_1_2_0 8700) _ eq_refl _).
  apply health_check_returns_report; reflexivity.
Defined.

(** ** What a successful call has seen *)

Ltac inv_bind H :=
  let a := fresh "a" in
  let w := fresh "w" in
  let Hm := fresh "Hm" in
  apply bind_returned in H; destruct H as (a & w & Hm & H).

Ltac inv_lift H :=
  let E := fresh "E" in
  apply lift_returned in H; destruct H as (E & ->).

Section SuccessfulCall.

Variable os : OS.
Variable env : Env.
Variable port : Z.

Lemma reconcile_returns_on_report (w w' : World) (info : pyval) :
  ensure_server_reconcile os env port w = (Returned (Some info), w') ->
  built_from_last_report info w'.
Proof.
  unfold ensure_server_reconcile. intros H.
  inv_bind H. rename a into health.
  destruct (truthy health) eqn:Htruthy; [| discriminate].
  inv_bind H. inv_lift Hm0. rename a into version.
  destruct (py_eq_str version (expected_version env)).
  - inv_bind H. inv_lift Hm0. inv_bind H. inv_lift Hm0. inv_bind H.
    unfold log in Hm0. injection Hm0 as <- <-.
    unfold ret in H. injection H as <- <-.
    exists health, "reused", a, a0. repeat split; auto.
    cbn [history record_log].
    eapply health_check_report_is_last; eauto.
  - inv_bind H. inv_bind H. inv_bind H. discriminate.
Qed.

Lemma poll_returns_on_report (n : nat) :
  forall (i : Z) (w w' : World) (info : pyval),
    ensure_server_poll os port n i w = (Returned (Some info), w') ->
    built_from_last_report info w'.
Proof.
  induction n as [|n IH]; intros i w w' info H; cbn [ensure_server_poll] in H.
  - discriminate.
  - inv_bind H. unfold time_sleep in Hm. injection Hm as <- <-.
    inv_bind H. rename a into health.
    destruct (truthy health) eqn:Htruthy; [| eauto].
    inv_bind H. inv_lift Hm0.
    inv_bind H. unfold log in Hm0. injection Hm0 as <- <-.
    inv_bind H. inv_lift Hm0. inv_bind H. inv_lift Hm0. inv_bind H. inv_lift Hm0.
    inv_bind H.
    assert (Hhist : history w1 = history w0).
    { destruct a2; unfold ret, log in Hm0; injection Hm0 as _ <-; reflexivity. }
    inv_bind H. inv_lift Hm1. inv_bind H. inv_lift Hm1.
    unfold ret in H. injection H as <- <-.
    exists health, "started", a4, a5. repeat split; auto.
    rewrite Hhist.
    eapply health_check_report_is_last; eauto.
Qed.

(** A call of [ensure_server] that returns has just read a true report,
    and returns the pid and the uptime of that report. *)
Lemma ensure_server_returns_on_report (w w' : World) (info : pyval) :
  ensure_server os env port w = (Returned info, w') ->
  built_from_last_report info w'.
Proof.
  unfold ensure_server. intros H.
  inv_bind H. destruct a as [reused|].
  - unfold ret in H. injection H as <- <-.
    eapply reconcile_returns_on_report; eauto.
  - inv_bind H. inv_bind H. destruct a0 as [started|].
    + unfold ret in H. injection H as <- <-.
      eapply poll_returns_on_report; eauto.
    + inv_bind H. inv_bind H. discriminate.
Qed.

End SuccessfulCall.

(** ** Two calls in a row *)

(** C2 as worded fails on the stale server of [os_stale]: the first call
    cannot tear the old server down, launches, and returns "started" on
    the report of the old server; the second call, right after, does all
    of that again and returns "started" too. *)
Lemma ensure_server_twice_not_reused_counterexample :
  ~ second_call_reuses os_stale env_1_2_0 8700 (imported_world env_1_2_0 8700).
Proof.
  intros Hclaim.
  pose (first := ensure_server os_stale env_1_2_0 8700 (imported_world env_1_2_0 8700)).
  assert (H1 : first = (Returned (server_info "started" (PyInt 501) (PyInt 0)), snd first)).
  { vm_compute. reflexivity. }
  pose (probe := _health_check os_stale 8700 (snd first)).
  assert (H2 : probe = (Returned report_stale, snd probe)).
  { vm_compute. reflexivity. }
  assert (H3 : last_report (history (snd first)) = Some report_stale)
    by (vm_compute; reflexivity).
  destruct (Hclaim _ _ _ _ H1 H3 H2) as (server_pid & uptime & w2 & evs & Hrun & _).
  apply (f_equal fst) in Hrun. vm_compute in Hrun. discriminate Hrun.
Qed.

(** C2, amended: [ensure_server] is called twice in a row and the first
    call returns.  If the report that the probe of the second call reads
    is true and carries the expected version (its uptime, like any other
    field, may differ from the report that the first call ended on), then
    the second call returns status "reused" with the pid and the uptime
    of that report, makes no system call beyond those of its probe, hence
    starts no process, and leaves both process handles as they were. *)
Theorem ensure_server_twice_reuses (os : OS) (env : Env) (port : Z)
    (w w1 w1' : World) (info1 report version : pyval) :
  ensure_server os env port w = (Returned info1, w1) ->
  _health_check os port w1 = (Returned report, w1') ->
  truthy report = true ->
  py_get report "version" (PyStr "unknown") = inr version ->
  py_eq_str version (expected_version env) = true ->
  exists server_pid uptime w2 evs,
    py_get report "pid" PyNone = inr server_pid /\
    py_get report "uptime_s" (PyInt 0) = inr uptime /\
    ensure_server_twice os env port w =
      (Returned (info1, server_info "reused" server_pid uptime), w2) /\
    history w2 = (history w1 ++ evs)%list /\
    probe_events port evs /\
    count_popen evs = 0%nat /\
    _server_proc w2 = _server_proc w1 /\
    _server_monitor w2 = _server_monitor w1.
Proof.
  intros Hfirst Hprobe Htruthy Hversion Hmatch.
  destruct report as [| | | | | |d]; try discriminate.
  assert (Hne : d <> []) by (destruct d; [discriminate | congruence]).
  destruct (reuse_on_matching_report os env port w1 w1' d version Hprobe Hne Hversion Hmatch)
    as (server_pid & uptime & Hpid & Hup & Hrun).
  destruct (health_check_events os port w1) as (evs & Hhist & Hevs).
  destruct (health_check_keeps_handles os port w1) as (Hproc & Hmon).
  rewrite Hprobe in Hhist, Hproc, Hmon. cbn [snd] in *.
  exists server_pid, uptime. eexists. exists evs.
  split; [exact Hpid |]. split; [exact Hup |]. split.
  - unfold ensure_server_twice. unfold bind at 1. rewrite Hfirst.
    unfold bind at 1. rewrite Hrun. reflexivity.
  - cbn. repeat split; auto.
    destruct Hevs as (ans & [-> | (r & ->)]); reflexivity.
Qed.

(** A first start and a second call right after it: the first call
    launches the server 7003 and returns "started" on a report with an
    uptime of 6; the second call reads a later report of the same server,
    with an uptime of 8, and returns "reused". *)
Lemma ensure_server_twice_reuses_witness :
  exists w1 w2 evs,
    ensure_server os_fresh_start env_1_2_0 8700 (imported_world env_1_2_0 8700)
      = (Returned (server_info "started" (PyInt 7003) (PyInt 6)), w1) /\
    _server_proc w1 = Some (mkPopen 7003) /\
    ensure_server_twice os_fresh_start env_1_2_0 8700 (imported_world env_1_2_0 8700)
      = (Returned (server_info "started" (PyInt 7003) (PyInt 6),
                   server_info "reused" (PyInt 7003) (PyInt 8)), w2) /\
    history w2 = (history w1 ++ evs)%list /\
    probe_events 8700 evs /\
    count_popen evs = 0%nat /\
    _server_proc w2 = _server_proc w1 /\
    _server_monitor w2 = _server_monitor w1.
Proof.
  pose (first := ensure_server os_fresh_start env_1_2_0 8700 (imported_world env_1_2_0 8700)).
  assert (Hfirst : first = (Returned (server_info "started" (PyInt 7003) (PyInt 6)), snd first))
    by (vm_compute; reflexivity).
  assert (Hhandle : _server_proc (snd first) = Some (mkPopen 7003))
    by (vm_compute; reflexivity).
  pose (probe := _health_check os_fresh_start 8700 (snd first)).
  assert (Hprobe : probe = (Returned (report_fresh (history (snd first) ++
                                        [EvUrlopen (health_request 8700) 2 (inr 200)])),
                            snd probe))
    by (vm_compute; reflexivity).
  destruct (ensure_server_twice_reuses os_fresh_start env_1_2_0 8700 _ _ _ _ _
              (PyStr "1.2.0") Hfirst Hprobe eq_refl eq_refl eq_refl)
    as (server_pid & uptime & w2 & evs & Hpid & Hup & H).
  vm_compute in Hpid. injection Hpid as <-.
  vm_compute in Hup. injection Hup as <-.
  exists (snd first), w2, evs.
  split; [exact Hfirst | split; [exact Hhandle | exact H]].
Defined.

(** ** The startup timeout *)

Lemma string_app_assoc (a b c : string) : (a ++ b) ++ c = a ++ (b ++ c).
Proof.
  induction a as [|ch a IH]; cbn; [reflexivity | rewrite IH; reflexivity].
Qed.

Lemma contains_here (needle post : string) : contains needle (needle ++ post).
Proof. exists "", post. reflexivity. Qed.

Lemma contains_later (needle pre rest : string) :
  contains needle rest -> contains needle (pre ++ rest).
Proof.
  intros (a & b & ->). exists (pre ++ a), b. apply eq_sym, string_app_assoc.
Qed.

Lemma extends_refl (w : World) : extends w w.
Proof. exists []. apply eq_sym, app_nil_r. Qed.

Lemma extends_trans (w1 w2 w3 : World) : extends w1 w2 -> extends w2 w3 -> extends w1 w3.
Proof.
  intros (e1 & H1) (e2 & H2). exists (e1 ++ e2)%list.
  rewrite H2, H1. apply eq_sym, app_assoc.
Qed.

Lemma extends_record_event (w : World) (ev : event) : extends w (record_event ev w).
Proof. exists [ev]. reflexivity. Qed.

Lemma total_sleep_probe (port : Z) (probe rest : list event) :
  probe_events port probe -> total_sleep (probe ++ rest) = total_sleep rest.
Proof.
  intros (ans & [-> | (r & ->)]); reflexivity.
Qed.

(** [n] rounds sleep [n] quarters of a second. *)
Lemma polled_total_sleep (port : Z) (n : nat) (rounds : list event) :
  polled port n rounds -> total_sleep rounds == Z.of_nat n # 4.
Proof.
  induction 1 as [|n probe rest Hprobe _ IH].
  - reflexivity.
  - cbn [total_sleep]. rewrite (total_sleep_probe port probe rest Hprobe), IH.
    unfold Qeq, Qplus. cbn [Qnum Qden]. lia.
Qed.

Section Timeout.

Variable os : OS.
Variable env : Env.
Variable port : Z.

(** With every probe absent, the loop of [n] rounds runs all of them and
    falls through. *)
Lemma poll_all_absent (n : nat) :
  forall (i : Z) (w : World),
    never_healthy os port w ->
    exists w' rounds,
      ensure_server_poll os port n i w = (Returned None, w') /\
      history w' = (history w ++ rounds)%list /\
      polled port n rounds.
Proof.
  induction n as [|n IH]; intros i w Hnever.
  - exists w, []. cbn. rewrite app_nil_r. auto using polled_none.
  - cbn [ensure_server_poll]. unfold bind at 1, time_sleep.
    set (ws := record_event (EvSleep (1 # 4)) w).
    assert (Hws : extends w ws) by apply extends_record_event.
    destruct (_health_check os port ws) as [o wh] eqn:Hprobe.
    pose proof (Hnever ws Hws) as Habsent. rewrite Hprobe in Habsent.
    cbn [fst] in Habsent. subst o.
    destruct (health_check_events os port ws) as (probe & Hhist & Hshape).
    rewrite Hprobe in Hhist. cbn [snd] in Hhist.
    assert (Hwh : extends w wh).
    { apply extends_trans with ws; [exact Hws | exists probe; exact Hhist]. }
    destruct (IH (i + 1) wh) as (w' & rest & Hrun & Hhist' & Hrest).
    { intros w'' Hext. apply Hnever. apply extends_trans with wh; assumption. }
    exists w', (EvSleep (1 # 4) :: probe ++ rest)%list.
    unfold bind at 1. rewrite Hprobe. cbn [truthy].
    split; [exact Hrun |]. split; [| apply polled_round; assumption].
    rewrite Hhist', Hhist. subst ws. cbn [history record_event].
    rewrite <- !app_assoc. reflexivity.
Qed.

#[local] Arguments path_join : simpl never.
#[local] Arguments LOG_DIR : simpl never.
#[local] Arguments LOG_FILE : simpl never.
#[local] Arguments SERVER_URL : simpl never.
#[local] Arguments str_of_Z : simpl never.
#[local] Arguments String.append : simpl never.

(** The read of the log tail, when the log cannot be decoded: the
    exception of the read is no [OSError], so it is not caught. *)
Lemma read_server_log_tail_raises (n_lines : Z) (w : World) (e : exn) :
  let server_log := path_join (LOG_DIR env) "server.log" in
  log_read_raises_at os env (history w) e ->
  _read_server_log_tail os env n_lines w =
    (Raised e,
     record_event (EvReadLines server_log (inl e)) (record_event (EvIsFile server_log true) w)).
Proof.
  intros server_log (Hfile & Hlines & Hos). subst server_log.
  unfold _read_server_log_tail. unfold_prims. cbn.
  rewrite Hfile. cbn. rewrite Hlines. cbn. rewrite Hos. reflexivity.
Qed.

(** In every other case the read of the log tail returns. *)
Lemma read_server_log_tail_returns (n_lines : Z) (w : World) :
  (forall e, ~ log_read_raises_at os env (history w) e) ->
  exists text w' tail,
    _read_server_log_tail os env n_lines w = (Returned text, w') /\
    history w' = (history w ++ tail)%list /\
    log_tail_events env tail.
Proof.
  intros Hsafe.
  unfold _read_server_log_tail, log_tail_events. unfold_prims. cbn.
  destruct (ans_isfile os (history w) (path_join (LOG_DIR env) "server.log")) eqn:Hfile; cbn.
  - match goal with
    | |- context [ans_readlines os ?h ?p] => destruct (ans_readlines os h p) as [e|lines] eqn:Hlines
    end; cbn.
    + destruct (isinstance_OSError e) eqn:Hos.
      * eexists; eexists; eexists. split; [reflexivity |]. split;
          [cbn; rewrite <- app_assoc; reflexivity | right; eexists; reflexivity].
      * exfalso. apply (Hsafe e). repeat split; assumption.
    + eexists; eexists; eexists. split; [reflexivity |]. split;
        [cbn; rewrite <- app_assoc; reflexivity | right; eexists; reflexivity].
  - eexists; eexists; eexists. split; [reflexivity |]. split; [reflexivity |].
    left; reflexivity.
Qed.

(** The message of [_format_startup_failure] names the server URL. *)
Lemma format_startup_failure_names_url (version : string) (w : World) :
  split_first (sys_version env) = inr version ->
  (forall e, ~ log_read_raises_at os env (history w) e) ->
  exists msg w' tail,
    _format_startup_failure os env port w = (Returned msg, w') /\
    history w' = (history w ++ tail)%list /\
    log_tail_events env tail /\
    contains (SERVER_URL port) msg.
Proof.
  intros Hversion Hsafe.
  destruct (read_server_log_tail_returns 20 w Hsafe) as (text & w' & tail & Hrun & Hhist & Htail).
  unfold _format_startup_failure. unfold bind at 1. rewrite Hrun.
  rewrite Hversion. cbn [lift]. unfold bind at 1, ret.
  eexists; exists w', tail. split; [reflexivity |].
  split; [exact Hhist |]. split; [exact Htail |].
  do 12 apply contains_later; apply contains_here.
Qed.

(** What the read of the log tail raises, [_format_startup_failure]
    raises: no message is built. *)
Lemma format_startup_failure_raises (w w' : World) (e : exn) :
  _read_server_log_tail os env 20 w = (Raised e, w') ->
  _format_startup_failure os env port w = (Raised e, w').
Proof.
  intros Hrun. unfold _format_startup_failure. unfold bind at 1. rewrite Hrun. reflexivity.
Qed.

(** The timeout with a log that can be read: the server and its
    watchdog have been launched, every health probe from then on returns
    [None], and the server log is missing, unreadable with an [OSError],
    or text.  Then
    [ensure_server] raises [RuntimeError], and between the launch and the
    raise it runs exactly 20 rounds of 0.25 s of sleep followed by one
    probe (5 s of sleep in all) and then reads the tail of the server
    log: it gives up neither before the 20th round nor later.  The
    message of the error contains the server URL. *)
Lemma startup_timeout_names_url (w w0 w1 : World) (version : string) :
  split_first (sys_version env) = inr version ->
  ensure_server_reconcile os env port w = (Returned None, w0) ->
  ensure_server_launch os env w0 = (Returned tt, w1) ->
  never_healthy os port w1 ->
  log_read_safe os env w1 ->
  exists msg w2 rounds tail,
    ensure_server os env port w = (Raised (RuntimeError msg), w2) /\
    history w2 = (history w1 ++ rounds ++ tail)%list /\
    polled port 20 rounds /\
    total_sleep rounds == 5 /\
    log_tail_events env tail /\
    contains (SERVER_URL port) msg.
Proof.
  intros Hversion Hreconcile Hlaunch Hnever Hsafe.
  destruct (poll_all_absent 20 0 w1 Hnever) as (wp & rounds & Hpoll & Hhist & Hrounds).
  set (wl := record_log (mkLog ERROR "Server failed to start within 5s — see %s"
                               [LVal (PyStr (path_join (LOG_DIR env) "server.log"))]) wp).
  assert (Hwl : extends w1 wl) by (exists rounds; exact Hhist).
  destruct (format_startup_failure_names_url version wl Hversion
              (fun e => Hsafe wl e Hwl))
    as (msg & w2 & tail & Hmsg & Hhist2 & Htail & Hurl).
  exists msg, w2, rounds, tail.
  split; [| split; [| split; [| split; [| split]]]]; auto.
  - unfold ensure_server. unfold bind at 1. rewrite Hreconcile.
    unfold bind at 1. rewrite Hlaunch.
    unfold bind at 1. rewrite Hpoll.
    unfold bind at 1, log. fold wl.
    unfold bind at 1. rewrite Hmsg. reflexivity.
  - rewrite Hhist2. subst wl. cbn [history record_log]. rewrite Hhist.
    apply eq_sym, app_assoc.
  - rewrite (polled_total_sleep port 20 rounds Hrounds). reflexivity.
Qed.

(** C3, where the code breaks it: the server and its watchdog have been
    launched, every health probe from then on returns [None], and the
    server log holds bytes that are no text in the default encoding, so
    that reading it raises [UnicodeDecodeError].  Then [ensure_server]
    gives up after exactly 20 rounds of 0.25 s of sleep followed by one
    probe (5 s of sleep in all), as the claim says, but what it raises is
    the [UnicodeDecodeError] of the read of the log, which the clause
    [except OSError] of [_read_server_log_tail] does not catch: no
    [RuntimeError] is raised and no message with the server URL is
    built. *)
Theorem startup_timeout_raises_log_decode_error (w w0 w1 : World) :
  let server_log := path_join (LOG_DIR env) "server.log" in
  ensure_server_reconcile os env port w = (Returned None, w0) ->
  ensure_server_launch os env w0 = (Returned tt, w1) ->
  never_healthy os port w1 ->
  log_read_raises os env w1 UnicodeDecodeError ->
  exists w2 rounds,
    ensure_server os env port w = (Raised UnicodeDecodeError, w2) /\
    history w2 =
      (history w1 ++ rounds ++
       [EvIsFile server_log true; EvReadLines server_log (inl UnicodeDecodeError)])%list /\
    polled port 20 rounds /\
    total_sleep rounds == 5.
Proof.
  intros server_log Hreconcile Hlaunch Hnever Hgarbled.
  destruct (poll_all_absent 20 0 w1 Hnever) as (wp & rounds & Hpoll & Hhist & Hrounds).
  set (wl := record_log (mkLog ERROR "Server failed to start within 5s — see %s"
                               [LVal (PyStr (path_join (LOG_DIR env) "server.log"))]) wp).
  assert (Hwl : extends w1 wl) by (exists rounds; exact Hhist).
  pose proof (read_server_log_tail_raises 20 wl UnicodeDecodeError (Hgarbled wl Hwl)) as Htail.
  eexists. exists rounds. split; [| split; [| split]].
  - unfold ensure_server. unfold bind at 1. rewrite Hreconcile.
    unfold bind at 1. rewrite Hlaunch.
    unfold bind at 1. rewrite Hpoll.
    unfold bind at 1, log. fold wl.
    unfold bind at 1. rewrite (format_startup_failure_raises _ _ _ Htail). reflexivity.
  - subst wl. cbn [history record_log record_event]. rewrite Hhist.
    rewrite <- !app_assoc. reflexivity.
  - exact Hrounds.
  - rewrite (polled_total_sleep port 20 rounds Hrounds). reflexivity.
Qed.

End Timeout.

(** Nothing runs on the machine of [os_down]: the first probe is refused,
    the launch goes through, no probe is ever answered, and the log is
    text. *)
Lemma startup_timeout_names_url_on_os_down :
  exists msg w2,
    ensure_server os_down env_1_2_0 8700 (imported_world env_1_2_0 8700)
      = (Raised (RuntimeError msg), w2) /\
    contains (SERVER_URL 8700) msg.
Proof.
  assert (Hreconcile :
    ensure_server_reconcile os_down env_1_2_0 8700 (imported_world env_1_2_0 8700)
    = (Returned None,
       snd (ensure_server_reconcile os_down env_1_2_0 8700 (imported_world env_1_2_0 8700))))
    by reflexivity.
  assert (Hlaunch :
    ensure_server_launch os_down env_1_2_0
      (snd (ensure_server_reconcile os_down env_1_2_0 8700 (imported_world env_1_2_0 8700)))
    = (Returned tt,
       snd (ensure_server_launch os_down env_1_2_0
              (snd (ensure_server_reconcile os_down env_1_2_0 8700
                      (imported_world env_1_2_0 8700))))))
    by reflexivity.
  destruct (startup_timeout_names_url os_down env_1_2_0 8700 _ _ _ "3.12.3"
              eq_refl Hreconcile Hlaunch)
    as (msg & w2 & rounds & tail & Hrun & _ & _ & _ & _ & Hurl).
  - intros w' _. reflexivity.
  - intros w' e _ (_ & Hlines & _). discriminate Hlines.
  - exists msg, w2. auto.
Qed.

(** The machine of [os_garbled_log]: the first probe is refused, the
    launch goes through, no probe is ever answered, and the server log
    cannot be decoded. *)
Lemma startup_timeout_raises_log_decode_error_witness :
  let server_log := path_join (LOG_DIR env_1_2_0) "server.log" in
  exists w0 w1 w2 rounds,
    ensure_server_reconcile os_garbled_log env_1_2_0 8700 (imported_world env_1_2_0 8700)
      = (Returned None, w0) /\
    ensure_server_launch os_garbled_log env_1_2_0 w0 = (Returned tt, w1) /\
    ensure_server os_garbled_log env_1_2_0 8700 (imported_world env_1_2_0 8700)
      = (Raised UnicodeDecodeError, w2) /\
    history w2 =
      (history w1 ++ rounds ++
       [EvIsFile server_log true; EvReadLines server_log (inl UnicodeDecodeError)])%list /\
    polled 8700 20 rounds /\
    total_sleep rounds == 5.
Proof.
  intros server_log. eexists. eexists.
  assert (Hreconcile :
    ensure_server_reconcile os_garbled_log env_1_2_0 8700 (imported_world env_1_2_0 8700)
    = (Returned None,
       snd (ensure_server_reconcile os_garbled_log env_1_2_0 8700
              (imported_world env_1_2_0 8700))))
    by reflexivity.
  assert (Hlaunch :
    ensure_server_launch os_garbled_log env_1_2_0
      (snd (ensure_server_reconcile os_garbled_log env_1_2_0 8700
              (imported_world env_1_2_0 8700)))
    = (Returned tt,
       snd (ensure_server_launch os_garbled_log env_1_2_0
              (snd (ensure_server_reconcile os_garbled_log env_1_2_0 8700
                      (imported_world env_1_2_0 8700))))))
    by reflexivity.
  assert (Hnever : never_healthy os_garbled_log 8700
    (snd (ensure_server_launch os_garbled_log env_1_2_0
            (snd (ensure_server_reconcile os_garbled_log env_1_2_0 8700
                    (imported_world env_1_2_0 8700))))))
    by (intros w' _; reflexivity).
  assert (Hgarbled : log_read_raises os_garbled_log env_1_2_0
    (snd (ensure_server_launch os_garbled_log env_1_2_0
            (snd (ensure_server_reconcile os_garbled_log env_1_2_0 8700
                    (imported_world env_1_2_0 8700)))))
    UnicodeDecodeError)
    by (intros w' _; repeat split).
  destruct (startup_timeout_raises_log_decode_error os_garbled_log env_1_2_0 8700 _ _ _
              Hreconcile Hlaunch Hnever Hgarbled)
    as (w2 & rounds & H).
  exists w2, rounds.
  split; [exact Hreconcile | split; [exact Hlaunch | exact H]].
Defined.

(** ** The system calls of a computation *)

Lemma emits_ret {A} (P : event -> Prop) (a : A) : emits P (ret a).
Proof. intros w. exists []. cbn. rewrite app_nil_r. auto. Qed.

Lemma emits_raise {A} (P : event -> Prop) (e : exn) : emits P (@raise A e).
Proof. intros w. exists []. cbn. rewrite app_nil_r. auto. Qed.

Lemma emits_lift {A} (P : event -> Prop) (r : exn + A) : emits P (lift r).
Proof. destruct r; [apply emits_raise | apply emits_ret]. Qed.

Lemma emits_bind {A B} (P : event -> Prop) (m : M A) (k : A -> M B) :
  emits P m -> (forall a, emits P (k a)) -> emits P (bind m k).
Proof.
  intros Hm Hk w. destruct (Hm w) as (e1 & H1 & P1). unfold bind.
  destruct (m w) as [[a| | | | |] w1]; cbn [snd] in *; eauto.
  destruct (Hk a w1) as (e2 & H2 & P2).
  exists (e1 ++ e2)%list. rewrite H2, H1, app_assoc.
  split; [reflexivity | apply Forall_app; auto].
Qed.

Lemma emits_try_except {A} (P : event -> Prop) (body : M A)
    (catches : exn -> bool) (handler : exn -> M A) :
  emits P body -> (forall e, emits P (handler e)) ->
  emits P (try_except body catches handler).
Proof.
  intros Hb Hh w. destruct (Hb w) as (e1 & H1 & P1). unfold try_except.
  destruct (body w) as [[a|e| | | |] w1]; cbn [snd] in *; eauto.
  destruct (catches e); cbn [snd]; eauto.
  destruct (Hh e w1) as (e2 & H2 & P2).
  exists (e1 ++ e2)%list. rewrite H2, H1, app_assoc.
  split; [reflexivity | apply Forall_app; auto].
Qed.

Lemma emits_ask {A} (P : event -> Prop) (answer : list event -> A) (ev : A -> event) :
  (forall a, P (ev a)) -> emits P (ask answer ev).
Proof. intros H w. eexists [_]. cbn. split; [reflexivity | auto]. Qed.

Lemma emits_silent {A} (P : event -> Prop) (m : M A) :
  (forall w, history (snd (m w)) = history w) -> emits P m.
Proof. intros H w. exists []. rewrite H, app_nil_r. auto. Qed.

Lemma emits_one (P : event -> Prop) (ev : event) :
  P ev -> emits P (fun w => (Returned tt, record_event ev w)).
Proof. intros H w. exists [ev]. cbn. auto. Qed.

(** Breaks a computation down to its system calls. *)
Ltac emits_step :=
  match goal with
  | |- emits _ (bind _ _) => apply emits_bind; [| intros ?]
  | |- emits _ (try_except _ _ _) => apply emits_try_except; [| intros ?]
  | |- emits _ (ret _) => apply emits_ret
  | |- emits _ (raise _) => apply emits_raise
  | |- emits _ (lift _) => apply emits_lift
  | |- emits _ (ask _ _) => apply emits_ask; intros ?
  | |- emits _ (log _ _ _) => apply emits_silent; reflexivity
  | |- emits _ (set_server_proc _) => apply emits_silent; reflexivity
  | |- emits _ (set_server_monitor _) => apply emits_silent; reflexivity
  | |- emits _ get_world => apply emits_silent; reflexivity
  | |- emits _ (json_loads ?b) => destruct b; [apply emits_ret | apply emits_raise]
  | |- emits _ (match ?x with _ => _ end) => destruct x
  | |- emits _ (fun w => (Returned tt, record_event _ w)) => apply emits_one
  end.

Ltac emits_auto := repeat emits_step; cbn; auto.

Section Configured.

Variable os : OS.
Variable env : Env.
Variable port : Z.


Lemma cleanup_server_configured : emits (as_configured env port) (_cleanup_server os).
Proof.
  unfold _cleanup_server, Popen_poll, Popen_terminate, Popen_wait, Popen_kill, oserr_opt.
  apply emits_bind; [emits_auto |]. intros w.
  apply emits_bind; [| intros _; apply emits_bind; [emits_auto |]; intros w'].
  - destruct (_server_proc w); emits_auto.
  - destruct (_server_monitor w'); emits_auto.
Qed.

Lemma health_check_configured : emits (as_configured env port) (_health_check os port).
Proof.
  unfold _health_check, urlopen, resp_read, health_request, SERVER_URL.
  emits_auto.
Qed.




Lemma poll_configured (n : nat) :
  forall i, emits (as_configured env port) (ensure_server_poll os port n i).
Proof.
  pose proof health_check_configured.
  induction n as [|n IH]; intros i; cbn [ensure_server_poll].
  - apply emits_ret.
  - apply emits_bind; [apply emits_one; exact I |]. intros _.
    apply emits_bind; [assumption |]. intros health.
    destruct (truthy health); [| apply IH].
    emits_auto.
Qed.

Lemma format_startup_failure_configured :
  emits (as_configured env port) (_format_startup_failure os env port).
Proof.
  unfold _format_startup_failure, _read_server_log_tail, os_path_isfile, open_readlines,
    oserr_to_exn.
  emits_auto.
Qed.



End Configured.

(** ** The launch command and the port *)

#[local] Arguments path_join : simpl never.
#[local] Arguments LOG_DIR : simpl never.
#[local] Arguments monitor_code : simpl never.
#[local] Arguments str_join : simpl never.




(** ** Replacing a server of another version *)

Lemma bind_assoc {A B C} (m : M A) (k : A -> M B) (k' : B -> M C) (w : World) :
  bind (bind m k) k' w = bind m (fun a => bind (k a) k') w.
Proof.
  unfold bind. destruct (m w) as [[a| | | | |] w1]; reflexivity.
Qed.



Section Teardown.

Variable os : OS.
Variable env : Env.
Variable port : Z.

(** Whatever follows the launch, the system calls begin with it. *)
Lemma launch_then {A} (k : unit -> M A) (w : World) :
  (forall x, emits (fun _ => True) (k x)) ->
  exists evs,
    history (snd (bind (ensure_server_launch os env) k w)) = (history w ++ evs)%list /\
    starts_with_launch env evs.
Proof.
  intros Hk. unfold ensure_server_launch, starts_with_launch.
  set (server_log := path_join (LOG_DIR env) "server.log").
  rewrite !bind_assoc. unfold bind at 1, log.
  unfold open_append. rewrite !bind_assoc. unfold bind at 1, ask.
  cbn [history record_log].
  destruct (ans_open_append os (history w) server_log) as [error|] eqn:Hopen.
  - exists [EvOpenAppend server_log (Some error)]. split; [reflexivity |].
    eexists; eexists. split; [reflexivity | discriminate].
  - cbn [oserr_opt lift]. unfold bind at 1, ret at 1.
    unfold subprocess_Popen. rewrite !bind_assoc. unfold bind at 1, ask.
    cbn [history record_event record_log].
    match goal with
    | |- context [snd (?R ?w0)] =>
        assert (HR : emits (fun _ => True) R);
          [| destruct (HR w0) as (rest & Hrest & _)]
    end.
    + unfold _start_server_monitor, subprocess_Popen, oserr_to_exn.
      repeat first [apply Hk | emits_step]; auto.
    + rewrite Hrest. cbn [history record_event].
      eexists. split; [rewrite <- !app_assoc; reflexivity |].
      eexists; eexists. split; [reflexivity |]. intros _.
      eexists; eexists. reflexivity.
Qed.

(** What follows the launch in [ensure_server] makes system calls only
    on top of the history. *)
Lemma after_launch_extends (x : unit) :
  emits (fun _ => True)
    (started <- ensure_server_poll os port 20 0 ;;
     match started with
     | Some info => ret info
     | None =>
         log ERROR "Server failed to start within 5s — see %s"
             [LVal (PyStr (path_join (LOG_DIR env) "server.log"))] ;;
         msg <- _format_startup_failure os env port ;;
         raise (RuntimeError msg)
     end).
Proof.
  apply emits_bind.
  - intros w. destruct (poll_configured os env port 20 0 w) as (evs & H & _).
    exists evs. split; [exact H | apply Forall_forall; auto].
  - intros [info|]; [apply emits_ret |].
    apply emits_bind; [emits_auto |]. intros _.
    apply emits_bind; [| intros msg; apply emits_raise].
    intros w. destruct (format_startup_failure_configured os env port w) as (evs & H & _).
    exists evs. split; [exact H | apply Forall_forall; auto].
Qed.


End Teardown.

(** The guard [if old_pid:]: a report of another version that carries
    no pid (or a false one) gets no signal; the run goes to the launch
    with nothing but the probe behind it. *)
Lemma reconcile_skips_teardown_without_pid (os : OS) (env : Env) (port : Z)
    (w w1 : World) (report : list (string * pyval)) (version old_pid : pyval) :
  _health_check os port w = (Returned (PyDict report), w1) ->
  report <> [] ->
  py_get (PyDict report) "version" (PyStr "unknown") = inr version ->
  py_eq_str version (expected_version env) = false ->
  py_get (PyDict report) "pid" PyNone = inr old_pid ->
  truthy old_pid = false ->
  exists w2,
    ensure_server_reconcile os env port w = (Returned None, w2) /\
    history w2 = history w1.
Proof.
  intros Hprobe Hne Hversion Hmismatch Hpid Hfalse.
  assert (Htruthy : truthy (PyDict report) = true) by (destruct report; [congruence | reflexivity]).
  unfold ensure_server_reconcile.
  unfold bind at 1. rewrite Hprobe, Htruthy.
  unfold bind at 1. rewrite Hversion. cbn [lift ret]. rewrite Hmismatch.
  unfold bind at 1. rewrite Hpid. cbn [lift ret].
  unfold bind at 1, log. rewrite Hfalse.
  eexists. split; reflexivity.
Qed.





(** ** The watchdog *)

(** [_start_server_monitor] makes one system call: it starts a Python
    process on the text of the watchdog for that server, with a pipe as
    its standard input and no output.  It writes nothing to the pipe. *)
Lemma start_server_monitor_spawns (os : OS) (env : Env) (server_pid : Z) (w : World) :
  let args := [sys_executable env; "-c"; monitor_code server_pid] in
  history (snd (_start_server_monitor os env server_pid w)) =
    (history w ++ [EvPopen args PIPE DEVNULL DEVNULL (ans_popen os (history w) args)])%list.
Proof.
  unfold _start_server_monitor. unfold_prims. cbn.
  destruct (ans_popen os (history w) [sys_executable env; "-c"; monitor_code server_pid]);
    reflexivity.
Qed.

(** The watchdog, once its standard input is at its end: it sends
    SIGTERM to the recorded process once, and ends normally whether the
    signal was delivered or refused (the process gone, say). *)
Lemma monitor_main_signals_once (os : OS) (server_pid : Z) (w : World) :
  is_pid server_pid ->
  server_pid <> ans_getpid os ->
  exists w',
    monitor_main os server_pid w = (Returned tt, w') /\
    history w' =
      (history w ++
       [EvStdinRead;
        EvOsKill server_pid SIGTERM
                 (ans_kill os (history w ++ [EvStdinRead]) server_pid SIGTERM)])%list.
Proof.
  intros Hp Hother. apply Z.eqb_neq in Hother.
  unfold monitor_main, os_kill. unfold_prims.
  rewrite (as_pid_of_pid server_pid Hp). cbn. rewrite Hother. cbn.
  destruct (ans_kill os (history w ++ [EvStdinRead]) server_pid SIGTERM);
    cbn; eexists; (split; [reflexivity | cbn; rewrite <- app_assoc; reflexivity]).
Qed.

(** * Further properties *)

(** ** The probes *)

(** X1: no [OSError] escapes the health probe.  A probe either returns,
    or raises an exception that is neither an [OSError] nor a [URLError];
    it never ends the process. *)
Theorem health_check_lets_no_oserror_out (os : OS) (port : Z) (w : World) :
  (exists v, fst (_health_check os port w) = Returned v) \/
  (exists e, fst (_health_check os port w) = Raised e /\
             isinstance_OSError e = false /\ isinstance_URLError e = false).
Proof.
  unfold _health_check. unfold_prims. cbn.
  destruct (ans_urlopen os (history w) (health_request port) 2) as [e|status]; cbn.
  - destruct (isinstance_URLError e) eqn:Hurl, (isinstance_OSError e) eqn:Hos; cbn; eauto.
  - destruct (status =? 200); cbn; eauto.
    match goal with
    | |- context [ans_read os ?h] => destruct (ans_read os h) as [e|[data|raw]]
    end; cbn;
      try (destruct (isinstance_URLError e) eqn:Hurl, (isinstance_OSError e) eqn:Hos; cbn);
      eauto 8.
Qed.

(** X2: [_get_diagnostics] makes one request to [/diagnostics] with a
    timeout of 5 seconds, and reads the body exactly when the request was
    answered with status 200: after a failed request or another status
    nothing is read.  It writes no log record and touches neither process
    handle; and like the health probe it lets no [OSError] out. *)
Theorem get_diagnostics_is_quiet (os : OS) (port : Z) (w : World) :
  let run := _get_diagnostics os port w in
  (exists evs, history (snd run) = (history w ++ evs)%list /\ diagnostics_events port evs) /\
  logs (snd run) = logs w /\
  _server_proc (snd run) = _server_proc w /\
  _server_monitor (snd run) = _server_monitor w /\
  ((exists v, fst run = Returned v) \/
   (exists e, fst run = Raised e /\ isinstance_OSError e = false)).
Proof.
  unfold _get_diagnostics, diagnostics_events. unfold_prims. cbn.
  destruct (ans_urlopen os (history w) (diagnostics_request port) 5) as [e|status]; cbn.
  - destruct (isinstance_URLError e) eqn:Hurl, (isinstance_OSError e) eqn:Hos; cbn;
      (split; [eexists; split; [reflexivity | left; exists (inl e); split; [discriminate | reflexivity]] |]);
      eauto 10.
  - destruct (Z.eqb_spec status 200) as [->|Hstatus]; cbn.
    + match goal with
      | |- context [ans_read os ?h] => destruct (ans_read os h) as [e|[data|raw]]
      end; cbn;
        try (destruct (isinstance_URLError e) eqn:Hurl, (isinstance_OSError e) eqn:Hos; cbn);
        (split; [eexists; split; [rewrite <- app_assoc; reflexivity
                                 | right; eexists; reflexivity] |]);
        eauto 10.
    + split; [eexists; split; [reflexivity | left; exists (inr status); split; [congruence | reflexivity]] |];
        eauto 10.
Qed.

(** ** Cleanup *)

(** X3: cleanup escalates in order, whatever the children do.  It waits
    for a child only right after a [terminate] that went through, and it
    sends SIGKILL only right after the wait of 3 seconds on that child
    timed out. *)
Theorem cleanup_server_escalates_in_order (os : OS) (w : World) :
  exists evs,
    history (snd (_cleanup_server os w)) = (history w ++ evs)%list /\
    escalates_in_order None evs = true.
Proof.
  unfold _cleanup_server. unfold_prims.
  destruct w as [h l sp sm dt di]; simpl.
  destruct sp as [proc|]; destruct sm as [mon|]; cbn;
    repeat (answer; cbn);
    (eexists; split;
     [first [rewrite <- ?app_assoc; reflexivity | symmetry; apply app_nil_r] |]);
    cbn; rewrite ?Z.eqb_refl; reflexivity.
Qed.

(** X4: a server that has already exited is only forgotten.  When
    [poll] reports an exit code, cleanup goes on exactly as if the handle
    had been empty: the server gets no signal and no wait. *)
Theorem cleanup_server_forgets_exited_server (os : OS) (w : World) (proc : Popen) (rc : Z) :
  _server_proc w = Some proc ->
  ans_poll os (history w) (pid proc) = Some rc ->
  _cleanup_server os w =
    _cleanup_server os (with_server_proc None (record_event (EvPoll (pid proc) (Some rc)) w)).
Proof.
  intros Hproc Hpoll. unfold _cleanup_server. unfold_prims.
  destruct w as [h l sp sm dt di]; simpl in *. subst. cbn.
  rewrite Hpoll. reflexivity.
Qed.

Lemma cleanup_server_forgets_exited_server_witness :
  _cleanup_server os_crashed world_with_children =
    _cleanup_server os_crashed
      (with_server_proc None (record_event (EvPoll 7005 (Some 1)) world_with_children)).
Proof.
  exact (cleanup_server_forgets_exited_server os_crashed world_with_children
           (mkPopen 7005) 1 eq_refl eq_refl).
Defined.

(** ** The watchdog and the parent watcher *)

(** X5: the watchdog (the program of lines 49-57, run as a process of
    its own) reads its standard input to the end and then sends SIGTERM
    to the recorded server once.  It ends normally whether the signal
    was delivered or refused (the server gone, say), and it writes no
    log record. *)
Theorem watchdog_signals_server_once (os : OS) (server_pid : Z) (w : World) :
  is_pid server_pid ->
  server_pid <> ans_getpid os ->
  exists w',
    monitor_main os server_pid w = (Returned tt, w') /\
    history w' =
      (history w ++
       [EvStdinRead;
        EvOsKill server_pid SIGTERM
                 (ans_kill os (history w ++ [EvStdinRead]) server_pid SIGTERM)])%list /\
    logs w' = logs w.
Proof.
  intros Hp Hother. apply Z.eqb_neq in Hother.
  unfold monitor_main, os_kill. unfold_prims.
  rewrite (as_pid_of_pid server_pid Hp). cbn. rewrite Hother. cbn.
  destruct (ans_kill os (history w ++ [EvStdinRead]) server_pid SIGTERM);
    cbn; eexists;
    (split; [reflexivity | split; [cbn; rewrite <- app_assoc; reflexivity | reflexivity]]).
Qed.

(** The watchdog of server 7005, whose server is already gone. *)
Lemma watchdog_signals_server_once_witness :
  exists w',
    monitor_main os_watchdog 7005 (mkWorld [] [] None None SIG_DFL SIG_DFL) = (Returned tt, w') /\
    history w' = [EvStdinRead; EvOsKill 7005 SIGTERM (Some ProcessLookupError)] /\
    logs w' = [].
Proof.
  assert (Hp : is_pid 7005) by (unfold is_pid; lia).
  assert (Hother : 7005 <> ans_getpid os_watchdog) by (cbn; lia).
  exact (watchdog_signals_server_once os_watchdog 7005
           (mkWorld [] [] None None SIG_DFL SIG_DFL) Hp Hother).
Defined.

Lemma watcher_rounds_keep (os : OS) (k : nat) :
  forall w,
    handles (watcher_rounds os k w) = handles w /\
    logs (watcher_rounds os k w) = logs w.
Proof.
  induction k as [|k IH]; intros w; cbn [watcher_rounds]; [auto |].
  destruct (IH (watcher_round os w)) as [Hh Hl]. rewrite Hh, Hl. auto.
Qed.

(** X6: while the parent process stays the one recorded at the start,
    the parent watcher only sleeps and reads the parent process id, round
    after round: it never runs the cleanup and never exits, both process
    handles stay as they were, and after the record of the start it
    writes no log record. *)
Theorem parent_watcher_only_polls_under_same_parent (os : OS) (fuel : nat) (w : World) :
  let original := ans_getppid os (history w) in
  let w0 := watcher_started os w in
  (forall j, (j < fuel)%nat -> ppid_seen os (watcher_rounds os j w0) = original) ->
  _start_parent_watcher os fuel w = (OutOfFuel, watcher_rounds os fuel w0) /\
  handles (watcher_rounds os fuel w0) = handles w /\
  logs (watcher_rounds os fuel w0) = logs w0.
Proof.
  intros original w0 Hquiet.
  destruct (watcher_rounds_keep os fuel w0) as [Hh Hl].
  split; [| split; [rewrite Hh; reflexivity | exact Hl]].
  unfold _start_parent_watcher. unfold bind at 1, os_getppid, ask.
  unfold bind at 1, log.
  exact (watcher_keeps_polling os original fuel w0 Hquiet).
Qed.

(** Five rounds with the parent alive. *)
Lemma parent_watcher_only_polls_under_same_parent_witness :
  let w0 := watcher_started os_down world_with_children in
  _start_parent_watcher os_down 5 world_with_children =
    (OutOfFuel, watcher_rounds os_down 5 w0) /\
  handles (watcher_rounds os_down 5 w0) = handles world_with_children /\
  logs (watcher_rounds os_down 5 w0) = logs w0.
Proof.
  apply (parent_watcher_only_polls_under_same_parent os_down 5 world_with_children).
  intros j Hj. reflexivity.
Defined.

(** ** Failures of the launch *)

(** X7: the first probe of [ensure_server] is not guarded.  What it
    raises, [ensure_server] raises, in the world the probe left: nothing
    has been launched and no signal sent. *)
Theorem ensure_server_raises_what_the_probe_raises (os : OS) (env : Env) (port : Z)
    (w w1 : World) (e : exn) :
  _health_check os port w = (Raised e, w1) ->
  ensure_server os env port w = (Raised e, w1).
Proof.
  intros Hprobe. unfold ensure_server, ensure_server_reconcile.
  unfold bind at 1. unfold bind at 1. rewrite Hprobe. reflexivity.
Qed.

Lemma ensure_server_raises_what_the_probe_raises_witness :
  ensure_server os_bad_gateway env_1_2_0 8700 (imported_world env_1_2_0 8700) =
    (Raised JSONDecodeError,
     snd (_health_check os_bad_gateway 8700 (imported_world env_1_2_0 8700))).
Proof.
  exact (ensure_server_raises_what_the_probe_raises os_bad_gateway env_1_2_0 8700
           (imported_world env_1_2_0 8700) _ JSONDecodeError eq_refl).
Defined.

#[local] Arguments path_join : simpl never.
#[local] Arguments LOG_DIR : simpl never.
#[local] Arguments monitor_code : simpl never.
#[local] Arguments str_join : simpl never.

(** X8: when the server log cannot be opened for appending, the launch
    raises that [OSError] at once: no process is started and both handles
    stay as they were. *)
Theorem launch_needs_the_log (os : OS) (env : Env) (w : World) (error : os_error) :
  let server_log := path_join (LOG_DIR env) "server.log" in
  ans_open_append os (history w) server_log = Some error ->
  exists w',
    ensure_server_launch os env w = (Raised (OSError error), w') /\
    history w' = (history w ++ [EvOpenAppend server_log (Some error)])%list /\
    handles w' = handles w.
Proof.
  intros server_log Hopen.
  unfold ensure_server_launch, server_cmd. unfold_prims. cbn.
  fold server_log. rewrite Hopen. cbn. eexists. repeat split.
Qed.

Lemma launch_needs_the_log_witness :
  exists w',
    ensure_server_launch os_readonly_logs env_1_2_0 (imported_world env_1_2_0 8700)
      = (Raised (OSError PermissionError), w') /\
    history w' =
      (history (imported_world env_1_2_0 8700) ++
       [EvOpenAppend (path_join (LOG_DIR env_1_2_0) "server.log") (Some PermissionError)])%list /\
    handles w' = handles (imported_world env_1_2_0 8700).
Proof.
  exact (launch_needs_the_log os_readonly_logs env_1_2_0 (imported_world env_1_2_0 8700)
           PermissionError eq_refl).
Defined.

(** X9: the handle of the server is recorded before the watchdog is
    started.  When the server starts but the watchdog cannot be started,
    the launch raises that [OSError] with [_server_proc] already set to
    the new server, so that cleanup still terminates it; [_server_monitor]
    is unchanged. *)
Theorem launch_records_server_before_watchdog (os : OS) (env : Env) (w : World)
    (server_pid : Z) (error : os_error) :
  let server_log := path_join (LOG_DIR env) "server.log" in
  let opened := EvOpenAppend server_log None in
  let started :=
    EvPopen (server_cmd env) Inherit (ToFile server_log) (ToFile server_log) (inr server_pid) in
  let watchdog := [sys_executable env; "-c"; monitor_code server_pid] in
  ans_open_append os (history w) server_log = None ->
  ans_popen os (history w ++ [opened]) (server_cmd env) = inr server_pid ->
  ans_popen os (history w ++ [opened; started]) watchdog = inl error ->
  exists w',
    ensure_server_launch os env w = (Raised (OSError error), w') /\
    _server_proc w' = Some (mkPopen server_pid) /\
    _server_monitor w' = _server_monitor w /\
    history w' =
      (history w ++ [opened; started; EvPopen watchdog PIPE DEVNULL DEVNULL (inl error)])%list.
Proof.
  intros server_log opened started watchdog Hopen Hserver Hwatchdog.
  unfold ensure_server_launch, _start_server_monitor. unfold_prims. cbn.
  fold server_log. rewrite Hopen. cbn.
  fold opened. rewrite Hserver. cbn.
  fold started. rewrite <- app_assoc. cbn [app].
  fold watchdog. rewrite Hwatchdog. cbn.
  eexists. repeat split. cbn. rewrite <- !app_assoc. reflexivity.
Qed.

Lemma launch_records_server_before_watchdog_witness :
  exists w',
    ensure_server_launch os_no_watchdog env_1_2_0 (imported_world env_1_2_0 8700)
      = (Raised (OSError EOther), w') /\
    _server_proc w' = Some (mkPopen 7005) /\
    _server_monitor w' = _server_monitor (imported_world env_1_2_0 8700) /\
    history w' =
      (history (imported_world env_1_2_0 8700) ++
       [EvOpenAppend (path_join (LOG_DIR env_1_2_0) "server.log") None;
        EvPopen (server_cmd env_1_2_0) Inherit
                (ToFile (path_join (LOG_DIR env_1_2_0) "server.log"))
                (ToFile (path_join (LOG_DIR env_1_2_0) "server.log")) (inr 7005);
        EvPopen [sys_executable env_1_2_0; "-c"; monitor_code 7005] PIPE DEVNULL DEVNULL
                (inl EOther)])%list.
Proof.
  exact (launch_records_server_before_watchdog os_no_watchdog env_1_2_0
           (imported_world env_1_2_0 8700) 7005 EOther eq_refl eq_refl eq_refl).
Defined.

(** ** What changes the process handles *)

Lemma keeps_ret {A} (a : A) : keeps_handles (ret a).
Proof. intros w. reflexivity. Qed.

Lemma keeps_raise {A} (e : exn) : keeps_handles (@raise A e).
Proof. intros w. reflexivity. Qed.

Lemma keeps_lift {A} (r : exn + A) : keeps_handles (lift r).
Proof. destruct r; intros w; reflexivity. Qed.

Lemma keeps_bind {A B} (m : M A) (k : A -> M B) :
  keeps_handles m -> (forall a, keeps_handles (k a)) -> keeps_handles (bind m k).
Proof.
  intros Hm Hk w. specialize (Hm w). unfold bind.
  destruct (m w) as [[a| | | | |] w1]; cbn [snd] in *; auto.
  rewrite (Hk a w1). exact Hm.
Qed.

Lemma keeps_try_except {A} (body : M A) (catches : exn -> bool) (handler : exn -> M A) :
  keeps_handles body -> (forall e, keeps_handles (handler e)) ->
  keeps_handles (try_except body catches handler).
Proof.
  intros Hb Hh w. specialize (Hb w). unfold try_except.
  destruct (body w) as [[a|e| | | |] w1]; cbn [snd] in *; auto.
  destruct (catches e); cbn [snd]; auto.
  rewrite (Hh e w1). exact Hb.
Qed.

Lemma keeps_ask {A} (answer : list event -> A) (ev : A -> event) :
  keeps_handles (ask answer ev).
Proof. intros w. reflexivity. Qed.

Lemma keeps_log (lvl : log_level) (fmt : string) (args : list log_arg) :
  keeps_handles (log lvl fmt args).
Proof. intros w. reflexivity. Qed.

Lemma keeps_one (ev : event) : keeps_handles (fun w => (Returned tt, record_event ev w)).
Proof. intros w. reflexivity. Qed.

(** Breaks a computation down to the steps that could set a handle. *)
Ltac keeps_step :=
  match goal with
  | |- keeps_handles (bind _ _) => apply keeps_bind; [| intros ?]
  | |- keeps_handles (try_except _ _ _) => apply keeps_try_except; [| intros ?]
  | |- keeps_handles (ret _) => apply keeps_ret
  | |- keeps_handles (raise _) => apply keeps_raise
  | |- keeps_handles (lift _) => apply keeps_lift
  | |- keeps_handles (ask _ _) => apply keeps_ask
  | |- keeps_handles (log _ _ _) => apply keeps_log
  | |- keeps_handles (json_loads ?b) => destruct b; [apply keeps_ret | apply keeps_raise]
  | |- keeps_handles (match ?x with _ => _ end) => destruct x
  | |- keeps_handles (fun w => (Returned tt, record_event _ w)) => apply keeps_one
  end.

Ltac keeps_auto := repeat keeps_step.

Section Handles.

Variable os : OS.
Variable env : Env.
Variable port : Z.

Lemma os_kill_keeps_handles (target : pyval) (sig : signal) :
  keeps_handles (os_kill os target sig).
Proof.
  unfold os_kill, oserr_opt. keeps_auto.
  intros w. unfold deliver_to_self. destruct (get_disposition w sig); reflexivity.
Qed.

Lemma health_check_keeps (w : World) :
  handles (snd (_health_check os port w)) = handles w.
Proof.
  destruct (health_check_keeps_handles os port w) as [Hp Hm].
  unfold handles. rewrite Hp, Hm. reflexivity.
Qed.

Lemma reconcile_keeps_handles : keeps_handles (ensure_server_reconcile os env port).
Proof.
  unfold ensure_server_reconcile, time_sleep.
  pose proof health_check_keeps as Hprobe.
  pose proof os_kill_keeps_handles as Hkill.
  apply keeps_bind; [exact Hprobe |]. intros health.
  destruct (truthy health); [| apply keeps_ret].
  apply keeps_bind; [apply keeps_lift |]. intros version.
  destruct (py_eq_str version (expected_version env)).
  - keeps_auto.
  - apply keeps_bind; [apply keeps_lift |]. intros old_pid.
    apply keeps_bind; [apply keeps_log |]. intros _.
    apply keeps_bind; [| intros _; apply keeps_ret].
    destruct (truthy old_pid); [| apply keeps_ret].
    apply keeps_try_except; [| intros e; apply keeps_log].
    apply keeps_bind; [apply Hkill |]. intros _.
    apply keeps_bind; [apply keeps_one |]. intros _.
    apply keeps_bind; [exact Hprobe |]. intros still.
    destruct (truthy still); [| apply keeps_ret].
    apply keeps_bind; [apply Hkill | intros _; apply keeps_one].
Qed.

Lemma poll_keeps_handles (n : nat) : forall i, keeps_handles (ensure_server_poll os port n i).
Proof.
  pose proof health_check_keeps as Hprobe.
  induction n as [|n IH]; intros i; cbn [ensure_server_poll].
  - apply keeps_ret.
  - apply keeps_bind; [apply keeps_one |]. intros _.
    apply keeps_bind; [exact Hprobe |]. intros health.
    destruct (truthy health); [| apply IH].
    keeps_auto.
Qed.

Lemma format_startup_failure_keeps_handles :
  keeps_handles (_format_startup_failure os env port).
Proof.
  unfold _format_startup_failure, _read_server_log_tail, os_path_isfile, open_readlines,
    oserr_to_exn.
  keeps_auto.
Qed.

(** A launch that returns has set both handles. *)
Lemma launch_sets_both_handles (w w1 : World) :
  ensure_server_launch os env w = (Returned tt, w1) ->
  exists proc mon, _server_proc w1 = Some proc /\ _server_monitor w1 = Some mon.
Proof.
  unfold ensure_server_launch, server_cmd, _start_server_monitor. unfold_prims. cbn.
  destruct (ans_open_append os (history w) (path_join (LOG_DIR env) "server.log"));
    cbn; [discriminate |].
  repeat (match goal with
          | |- context [ans_popen ?o ?h ?a] => destruct (ans_popen o h a)
          end; cbn); try discriminate.
  intros [= <-]. cbn. eauto.
Qed.

Lemma reconcile_returns_reused (w w' : World) (info : pyval) :
  ensure_server_reconcile os env port w = (Returned (Some info), w') ->
  exists server_pid uptime, info = server_info "reused" server_pid uptime.
Proof.
  unfold ensure_server_reconcile. intros H.
  inv_bind H. rename a into health.
  destruct (truthy health); [| discriminate].
  inv_bind H. inv_lift Hm0. rename a into version.
  destruct (py_eq_str version (expected_version env)).
  - inv_bind H. inv_lift Hm0. inv_bind H. inv_lift Hm0. inv_bind H.
    unfold ret in H. injection H as <- _. eauto.
  - inv_bind H. inv_bind H. inv_bind H. discriminate.
Qed.

Lemma poll_returns_started (n : nat) :
  forall (i : Z) (w w' : World) (info : pyval),
    ensure_server_poll os port n i w = (Returned (Some info), w') ->
    exists server_pid uptime, info = server_info "started" server_pid uptime.
Proof.
  induction n as [|n IH]; intros i w w' info H; cbn [ensure_server_poll] in H.
  - discriminate.
  - inv_bind H. inv_bind H. rename a0 into health.
    destruct (truthy health); [| eauto].
    inv_bind H. inv_bind H. inv_bind H. inv_bind H. inv_bind H. inv_bind H.
    inv_bind H. inv_bind H.
    unfold ret in H. injection H as <- _. eauto.
Qed.

(** X10: what [ensure_server] returns, as its docstring says: a dict with
    [server_status], [server_pid] and [server_uptime_s], the status being
    "reused" or "started".  With "reused" both process handles are as
    before the call; with "started" both are set, to the server and to its
    watchdog. *)
Theorem ensure_server_returns_reused_or_started (w w' : World) (info : pyval) :
  ensure_server os env port w = (Returned info, w') ->
  (exists server_pid uptime,
     info = server_info "reused" server_pid uptime /\ handles w' = handles w) \/
  (exists server_pid uptime proc mon,
     info = server_info "started" server_pid uptime /\
     _server_proc w' = Some proc /\ _server_monitor w' = Some mon).
Proof.
  unfold ensure_server. intros H.
  inv_bind H. pose proof (reconcile_keeps_handles w) as Hkeep.
  rewrite Hm in Hkeep. cbn [snd] in Hkeep.
  destruct a as [reused|].
  - unfold ret in H. injection H as <- <-.
    destruct (reconcile_returns_reused _ _ _ Hm) as (p & u & ->).
    left. eauto.
  - inv_bind H. destruct a.
    destruct (launch_sets_both_handles _ _ Hm0) as (proc & mon & Hp & Hmon).
    inv_bind H. pose proof (poll_keeps_handles 20 0 w1) as Hpoll.
    rewrite Hm1 in Hpoll. cbn [snd] in Hpoll. unfold handles in Hpoll.
    injection Hpoll as Hp' Hmon'.
    destruct a as [started|].
    + unfold ret in H. injection H as <- <-.
      destruct (poll_returns_started _ _ _ _ _ Hm1) as (p & u & ->).
      right. exists p, u, proc, mon. rewrite Hp', Hmon'. auto.
    + inv_bind H. inv_bind H. discriminate.
Qed.

End Handles.

(** The upgrade of [os_upgrade] ends with status "started". *)
Lemma ensure_server_returns_reused_or_started_witness :
  let run := ensure_server os_upgrade env_1_2_0 8700 (imported_world env_1_2_0 8700) in
  (exists server_pid uptime,
     server_info "started" (PyInt 7007) (PyInt 0) = server_info "reused" server_pid uptime /\
     handles (snd run) = handles (imported_world env_1_2_0 8700)) \/
  (exists server_pid uptime proc mon,
     server_info "started" (PyInt 7007) (PyInt 0) = server_info "started" server_pid uptime /\
     _server_proc (snd run) = Some proc /\ _server_monitor (snd run) = Some mon).
Proof.
  intros run.
  assert (Hrun : run = (Returned (server_info "started" (PyInt 7007) (PyInt 0)), snd run))
    by (vm_compute; reflexivity).
  exact (ensure_server_returns_reused_or_started os_upgrade env_1_2_0 8700
           (imported_world env_1_2_0 8700) (snd run) _ Hrun).
Defined.

(** ** The polling loop *)

(** X11: broken static files never fail the start.  When a round of the
    polling loop gets a report whose [static_files] is a dict of dicts,
    the loop returns status "started" with the pid and uptime of the
    report whatever the files are; it writes the "ready" record and, only
    when some file is missing or empty, one WARNING record naming those
    files. *)
Theorem poll_warns_about_static_files_but_returns (os : OS) (port : Z) (n : nat) (i : Z)
    (w wh : World) (report : list (string * pyval)) (static : pyval)
    (items : list (string * pyval)) (names : list string) :
  _health_check os port (record_event (EvSleep (1 # 4)) w) = (Returned (PyDict report), wh) ->
  report <> [] ->
  py_get (PyDict report) "static_files" (PyDict []) = inr static ->
  py_items static = inr items ->
  missing_static items = inr names ->
  exists server_pid uptime w',
    py_get (PyDict report) "pid" PyNone = inr server_pid /\
    py_get (PyDict report) "uptime_s" (PyInt 0) = inr uptime /\
    ensure_server_poll os port (S n) i w =
      (Returned (Some (server_info "started" server_pid uptime)), w') /\
    history w' = history wh /\
    logs w' = (logs wh ++ ready_log i server_pid ::
               match names with
               | [] => []
               | _ => [static_warning_log names]
               end)%list.
Proof.
  intros Hprobe Hne Hstatic Hitems Hmissing.
  assert (Htruthy : truthy (PyDict report) = true) by (destruct report; [congruence | reflexivity]).
  destruct (py_get (PyDict report) "pid" PyNone) as [e|server_pid] eqn:Hpid; [discriminate |].
  destruct (py_get (PyDict report) "uptime_s" (PyInt 0)) as [e|uptime] eqn:Hup; [discriminate |].
  exists server_pid, uptime.
  cbn [ensure_server_poll]. unfold bind at 1, time_sleep.
  unfold bind at 1. rewrite Hprobe, Htruthy.
  unfold bind at 1. rewrite Hpid. cbn [lift ret].
  unfold bind at 1, log. fold (ready_log i server_pid).
  unfold bind at 1. rewrite Hstatic. cbn [lift ret].
  unfold bind at 1. rewrite Hitems. cbn [lift ret].
  unfold bind at 1. rewrite Hmissing. cbn [lift ret].
  destruct names as [|name names].
  - unfold bind at 1, ret at 1.
    unfold bind at 1. cbn [lift ret].
    unfold bind at 1. rewrite Hup. cbn [lift ret].
    eexists. repeat split.
  - unfold bind at 1, log. fold (static_warning_log (name :: names)).
    unfold bind at 1. cbn [lift ret].
    unfold bind at 1. rewrite Hup. cbn [lift ret].
    eexists. repeat split. cbn. rewrite <- app_assoc. reflexivity.
Qed.

Lemma poll_warns_about_static_files_but_returns_witness :
  exists server_pid uptime w',
    py_get report_blank_page "pid" PyNone = inr server_pid /\
    py_get report_blank_page "uptime_s" (PyInt 0) = inr uptime /\
    ensure_server_poll os_blank_page 8700 20 0 (imported_world env_1_2_0 8700) =
      (Returned (Some (server_info "started" server_pid uptime)), w') /\
    history w' =
      history (snd (_health_check os_blank_page 8700
                      (record_event (EvSleep (1 # 4)) (imported_world env_1_2_0 8700)))) /\
    logs w' =
      (logs (snd (_health_check os_blank_page 8700
                    (record_event (EvSleep (1 # 4)) (imported_world env_1_2_0 8700)))) ++
       [ready_log 0 server_pid;
        static_warning_log ["standalone.js"; "standalone.css"]])%list.
Proof.
  refine (poll_warns_about_static_files_but_returns os_blank_page 8700 19 0
            (imported_world env_1_2_0 8700) _ _ _ _ ["standalone.js"; "standalone.css"]
            eq_refl _ eq_refl eq_refl eq_refl).
  discriminate.
Defined.

(** ** A report that counts for nothing *)

(** X12: a probe result that is false in Python (no report, but also an
    empty JSON object, [null], [0], an empty string or list) is no running
    server: [ensure_server] sends no signal and goes on with the launch
    right after the probe. *)
Theorem false_report_counts_as_no_server (os : OS) (env : Env) (port : Z)
    (w w1 : World) (v : pyval) :
  _health_check os port w = (Returned v, w1) ->
  truthy v = false ->
  ensure_server_reconcile os env port w = (Returned None, w1) /\
  exists launch,
    history (snd (ensure_server os env port w)) = (history w1 ++ launch)%list /\
    starts_with_launch env launch.
Proof.
  intros Hprobe Hfalse.
  assert (Hrun : ensure_server_reconcile os env port w = (Returned None, w1)).
  { unfold ensure_server_reconcile. unfold bind at 1. rewrite Hprobe, Hfalse. reflexivity. }
  split; [exact Hrun |].
  destruct (launch_then os env _ w1 (after_launch_extends os env port))
    as (launch & Hlaunch & Hshape).
  exists launch. split; [| exact Hshape].
  unfold ensure_server. unfold bind at 1. rewrite Hrun. exact Hlaunch.
Qed.

Lemma false_report_counts_as_no_server_witness :
  let w := imported_world env_1_2_0 8700 in
  let w1 := snd (_health_check os_empty_report 8700 w) in
  ensure_server_reconcile os_empty_report env_1_2_0 8700 w = (Returned None, w1) /\
  exists launch,
    history (snd (ensure_server os_empty_report env_1_2_0 8700 w)) = (history w1 ++ launch)%list /\
    starts_with_launch env_1_2_0 launch.
Proof.
  exact (false_report_counts_as_no_server os_empty_report env_1_2_0 8700
           (imported_world env_1_2_0 8700) _ (PyDict []) eq_refl eq_refl).
Defined.

(** ** The startup diagnostics *)

Lemma slice_last_splits {A} (n : Z) (l : list A) :
  exists dropped,
    l = (dropped ++ slice_last n l)%list /\
    (0 < n -> List.length (slice_last n l) = Nat.min (Z.to_nat n) (List.length l)).
Proof.
  unfold slice_last. destruct (Z.gtb_spec n 0) as [Hpos|Hneg].
  - exists (firstn (List.length l - Z.to_nat n) l). split.
    + symmetry. apply firstn_skipn.
    + intros _. rewrite length_skipn. lia.
  - exists (firstn (Z.to_nat (- n)) l). split.
    + symmetry. apply firstn_skipn.
    + lia.
Qed.

(** The read of the log tail, when the log is a file that can be read:
    the lines at the end of the log, joined. *)
Lemma read_server_log_tail_reads (os : OS) (env : Env) (n_lines : Z) (w : World)
    (lines : list string) :
  let server_log := path_join (LOG_DIR env) "server.log" in
  ans_isfile os (history w) server_log = true ->
  ans_readlines os (history w ++ [EvIsFile server_log true])%list server_log = inr lines ->
  _read_server_log_tail os env n_lines w =
    (Returned (str_join "" (slice_last n_lines lines)),
     record_event (EvReadLines server_log (inr lines)) (record_event (EvIsFile server_log true) w)).
Proof.
  intros server_log Hfile Hlines. subst server_log.
  unfold _read_server_log_tail. unfold_prims. cbn.
  rewrite Hfile. cbn. rewrite Hlines. reflexivity.
Qed.

(** X13: [_read_server_log_tail] by cases; it writes no log record in
    any of them.  When the log is no file it returns the text "(server
    log not found)".  When the log is a file and reading it gives its
    lines, it returns the lines at the end of the log joined together:
    with a positive [n_lines], the last [n_lines] lines, or all of them
    when the log is shorter.  When reading it raises an [OSError] it
    returns "(server log not found)" again; and when reading it raises
    anything else ([UnicodeDecodeError], for bytes that are no text) the
    function raises that exception: the clause [except OSError] does not
    catch it. *)
Theorem read_server_log_tail_by_cases (os : OS) (env : Env) (n_lines : Z) (w : World) :
  let server_log := path_join (LOG_DIR env) "server.log" in
  let run := _read_server_log_tail os env n_lines w in
  logs (snd run) = logs w /\
  if ans_isfile os (history w) server_log then
    match ans_readlines os (history w ++ [EvIsFile server_log true])%list server_log with
    | inr lines =>
        exists dropped kept,
          lines = (dropped ++ kept)%list /\
          (0 < n_lines -> List.length kept = Nat.min (Z.to_nat n_lines) (List.length lines)) /\
          fst run = Returned (str_join "" kept)
    | inl e =>
        fst run = if isinstance_OSError e then Returned "(server log not found)" else Raised e
    end
  else fst run = Returned "(server log not found)".
Proof.
  intros server_log run. subst run.
  unfold _read_server_log_tail. fold server_log. unfold_prims. cbn.
  destruct (ans_isfile os (history w) server_log); cbn; [| auto].
  destruct (ans_readlines os (history w ++ [EvIsFile server_log true]) server_log)
    as [e|lines]; cbn.
  - destruct (isinstance_OSError e); cbn; auto.
  - split; [reflexivity |].
    destruct (slice_last_splits n_lines lines) as (dropped & Hsplit & Hlen).
    exists dropped, (slice_last n_lines lines). auto.
Qed.

(** ** The port, written and read *)

















(** ** The message of a failed start *)

Lemma contains_prefix3 (a b c post : string) : contains (a ++ b ++ c) (a ++ b ++ c ++ post).
Proof.
  exists "", post. cbn. rewrite !string_app_assoc. reflexivity.
Qed.

#[local] Arguments LOG_FILE : simpl never.
#[local] Arguments SERVER_URL : simpl never.
#[local] Arguments str_of_Z : simpl never.
#[local] Arguments String.append : simpl never.
#[local] Arguments slice_last : simpl never.

(** X15: when the server log is a file that can be read, the message
    of [_format_startup_failure] carries the last 20 lines of the log
    (all of them when the log is shorter), joined, and the command to
    start the server by hand, which passes [--port] with the configured
    port. *)
Theorem format_startup_failure_carries_log_and_command (os : OS) (env : Env) (port : Z)
    (version : string) (w : World) (lines : list string) :
  let server_log := path_join (LOG_DIR env) "server.log" in
  split_first (sys_version env) = inr version ->
  ans_isfile os (history w) server_log = true ->
  ans_readlines os (history w ++ [EvIsFile server_log true])%list server_log = inr lines ->
  exists msg w' dropped kept,
    _format_startup_failure os env port w = (Returned msg, w') /\
    lines = (dropped ++ kept)%list /\
    List.length kept = Nat.min 20 (List.length lines) /\
    contains (str_join "" kept) msg /\
    contains (sys_executable env ++ " -m buckaroo.server --no-browser --port " ++ str_of_Z port)
             msg.
Proof.
  intros server_log Hversion Hfile Hlines.
  pose proof (read_server_log_tail_reads os env 20 w lines Hfile Hlines) as Htail.
  destruct (slice_last_splits 20 lines) as (dropped & Hsplit & Hlen).
  unfold _format_startup_failure. unfold bind at 1. rewrite Htail.
  rewrite Hversion. cbn [lift]. unfold bind at 1, ret.
  eexists; eexists; exists dropped, (slice_last 20 lines).
  split; [reflexivity |]. split; [exact Hsplit |].
  split; [apply Hlen; lia |]. split.
  - do 22 apply contains_later. apply contains_here.
  - do 46 apply contains_later. apply contains_prefix3.
Qed.

(** The log of [os_down] holds one line. *)
Lemma format_startup_failure_carries_log_and_command_witness :
  exists msg w' dropped kept,
    _format_startup_failure os_down env_1_2_0 8700 (imported_world env_1_2_0 8700)
      = (Returned msg, w') /\
    ["OSError: [Errno 98] Address already in use" ++ nl] = (dropped ++ kept)%list /\
    List.length kept = Nat.min 20 1 /\
    contains (str_join "" kept) msg /\
    contains (sys_executable env_1_2_0 ++ " -m buckaroo.server --no-browser --port " ++
              str_of_Z 8700) msg.
Proof.
  exact (format_startup_failure_carries_log_and_command os_down env_1_2_0 8700 "3.12.3"
           (imported_world env_1_2_0 8700) _ eq_refl eq_refl eq_refl).
Defined.

(** ** Where the logs are *)

Lemma get_after_prefix (s : string) (c : ascii) (t : string) :
  get (String.length s) (s ++ String c t) = Some c.
Proof. induction s as [|a s IH]; [reflexivity | exact IH]. Qed.

Lemma length_app_one (s : string) (c : ascii) :
  String.length (s ++ String c "") = S (String.length s).
Proof.
  induction s as [|a s IH]; [reflexivity |].
  change (S (String.length (s ++ String c "")) = S (S (String.length s))).
  rewrite IH. reflexivity.
Qed.

Lemma ends_with_slash_last (s : string) (c : ascii) :
  ends_with_slash (s ++ String c "") = Ascii.eqb c "/"%char.
Proof.
  unfold ends_with_slash. rewrite length_app_one. cbn [Nat.sub].
  rewrite Nat.sub_0_r, get_after_prefix. reflexivity.
Qed.

Lemma app_one_not_empty (s : string) (c : ascii) : (s ++ String c "" =? "")%string = false.
Proof. destruct s; reflexivity. Qed.

(** Joining a name that does not start with a slash to a directory that
    ends in a character other than a slash puts one slash between them. *)
Lemma path_join_plain (dir : string) (last first : ascii) (name : string) :
  Ascii.eqb last "/"%char = false ->
  Ascii.eqb first "/"%char = false ->
  path_join (dir ++ String last "") (String first name) =
    (dir ++ String last "") ++ "/" ++ String first name.
Proof.
  intros Hlast Hfirst. unfold path_join.
  rewrite Hfirst, app_one_not_empty, ends_with_slash_last, Hlast. reflexivity.
Qed.

Lemma path_join_dot_buckaroo (home : string) :
  exists dir, path_join home ".buckaroo" = dir ++ "o".
Proof.
  unfold path_join. cbn [Ascii.eqb Bool.eqb].
  destruct ((home =? "")%string || ends_with_slash home).
  - exists (home ++ ".buckaro"). rewrite string_app_assoc. reflexivity.
  - exists (home ++ "/.buckaro"). rewrite string_app_assoc. reflexivity.
Qed.

(** X16: whatever the home directory is (empty, or with a slash at its
    end), the log directory is [.buckaroo/logs] under it and both log
    files lie directly in the log directory. *)
Theorem log_files_lie_in_log_dir (env : Env) :
  LOG_DIR env = path_join (home env) ".buckaroo" ++ "/logs" /\
  LOG_FILE env = LOG_DIR env ++ "/mcp_tool.log" /\
  path_join (LOG_DIR env) "server.log" = LOG_DIR env ++ "/server.log".
Proof.
  destruct (path_join_dot_buckaroo (home env)) as (dir & Hdir).
  assert (Hlogs : LOG_DIR env = path_join (home env) ".buckaroo" ++ "/logs").
  { unfold LOG_DIR. rewrite Hdir. apply (path_join_plain dir "o" "l" "ogs"); reflexivity. }
  assert (Hend : LOG_DIR env = (dir ++ "o/log") ++ "s").
  { rewrite Hlogs, Hdir, !string_app_assoc. reflexivity. }
  split; [exact Hlogs |]. split.
  - unfold LOG_FILE. rewrite Hend.
    apply (path_join_plain (dir ++ "o/log") "s" "m" "cp_tool.log"); reflexivity.
  - rewrite Hend.
    apply (path_join_plain (dir ++ "o/log") "s" "s" "erver.log"); reflexivity.
Qed.

(** ** Loading a file *)

Lemma try_except_returned {A} (body : M A) (catches : exn -> bool) (handler : exn -> M A)
    (w : World) (a : A) (w' : World) :
  try_except body catches handler w = (Returned a, w') ->
  body w = (Returned a, w') \/
  exists e w1, body w = (Raised e, w1) /\ handler e w1 = (Returned a, w').
Proof.
  unfold try_except. destruct (body w) as [[x|e| | | |] w1]; try discriminate; auto.
  destruct (catches e); [eauto | discriminate].
Qed.

Section Loading.

Variable os : OS.
Variable env : Env.
Variable port : Z.

(** X17: a failure of [ensure_server] is logged and raised again
    unchanged by [_view_impl], and no load request is sent: the history
    ends where [ensure_server] left it. *)
Theorem view_impl_raises_what_ensure_server_raises (path : string) (w w1 : World) (e : exn) :
  let abspath := os_path_abspath env path in
  ensure_server os env port (record_log (view_called_log abspath) w) = (Raised e, w1) ->
  _view_impl os env port path w = (Raised e, record_log (ensure_server_failed_log e) w1).
Proof.
  intros abspath Hrun. unfold _view_impl. fold abspath.
  unfold bind at 1, log. fold (view_called_log abspath).
  unfold bind at 1, try_except. rewrite Hrun. reflexivity.
Qed.

(** X18: an exception of the load request (the server refusing the file,
    the connection failing) is raised again unchanged by [_view_impl]. *)
Theorem view_impl_raises_what_the_load_raises (path : string) (w w1 : World)
    (info : pyval) (e : exn) :
  let abspath := os_path_abspath env path in
  ensure_server os env port (record_log (view_called_log abspath) w) = (Returned info, w1) ->
  ans_urlopen os (history w1) (load_request env port abspath) 30 = inl e ->
  fst (_view_impl os env port path w) = Raised e.
Proof.
  intros abspath Hrun Hload. unfold _view_impl. fold abspath.
  unfold bind at 1, log. fold (view_called_log abspath).
  unfold bind at 1, try_except at 1. rewrite Hrun.
  unfold bind at 1. unfold bind at 1, try_except at 1.
  unfold bind at 1, urlopen. unfold bind at 1, ask.
  cbn [history record_log]. rewrite Hload. cbn [lift raise].
  unfold bind at 1. destruct (has_read e).
  - unfold try_except, bind at 1, resp_read. unfold bind at 1, ask.
    match goal with
    | |- context [ans_read os ?h] => destruct (ans_read os h) as [e'|b]
    end; reflexivity.
  - reflexivity.
Qed.

(** X19: whenever [_view_impl] returns, the summary it returns carries
    the base name of the file and the address of the interactive view,
    [http://localhost:<port>/s/<session>]. *)
Theorem view_impl_summary_names_file_and_url (path : string) (w w' : World) (summary : string) :
  _view_impl os env port path w = (Returned summary, w') ->
  contains (os_path_basename (os_path_abspath env path)) summary /\
  contains (SERVER_URL port ++ "/s/" ++ SESSION_ID env) summary.
Proof.
  unfold _view_impl. intros H.
  inv_bind H. inv_bind H.
  inv_bind H. inv_bind H.
  do 10 (inv_bind H). inv_bind H.
  unfold ret in H. injection H as <- _. split.
  - do 1 apply contains_later. apply contains_here.
  - do 15 apply contains_later. apply contains_here.
Qed.

End Loading.

Lemma view_impl_raises_what_ensure_server_raises_witness :
  exists w1,
    ensure_server os_bad_gateway env_1_2_0 8700
      (record_log (view_called_log (os_path_abspath env_1_2_0 "sales.csv"))
                  (imported_world env_1_2_0 8700))
      = (Raised JSONDecodeError, w1) /\
    _view_impl os_bad_gateway env_1_2_0 8700 "sales.csv" (imported_world env_1_2_0 8700)
      = (Raised JSONDecodeError, record_log (ensure_server_failed_log JSONDecodeError) w1).
Proof.
  eexists. split; [reflexivity |].
  exact (view_impl_raises_what_ensure_server_raises os_bad_gateway env_1_2_0 8700
           "sales.csv" (imported_world env_1_2_0 8700) _ JSONDecodeError eq_refl).
Defined.

Lemma view_impl_raises_what_the_load_raises_witness :
  fst (_view_impl os_load_refused env_1_2_0 8700 "sales.csv" (imported_world env_1_2_0 8700))
    = Raised (HTTPError 404).
Proof.
  exact (view_impl_raises_what_the_load_raises os_load_refused env_1_2_0 8700
           "sales.csv" (imported_world env_1_2_0 8700) _ _ (HTTPError 404) eq_refl eq_refl).
Defined.

Lemma view_impl_summary_names_file_and_url_witness :
  let run := _view_impl os_loading env_1_2_0 8700 "sales.csv" (imported_world env_1_2_0 8700) in
  exists summary,
    run = (Returned summary, snd run) /\
    contains (os_path_basename (os_path_abspath env_1_2_0 "sales.csv")) summary /\
    contains (SERVER_URL 8700 ++ "/s/" ++ SESSION_ID env_1_2_0) summary.
Proof.
  intros run.
  assert (Hrun : exists summary, run = (Returned summary, snd run))
    by (eexists; vm_compute; reflexivity).
  destruct Hrun as (summary & Hrun). exists summary. split; [exact Hrun |].
  exact (view_impl_summary_names_file_and_url os_loading env_1_2_0 8700 "sales.csv"
           (imported_world env_1_2_0 8700) (snd run) summary Hrun).
Defined.

(** ** The diagnostics tool *)

Lemma string_app_nil_r (s : string) : s ++ "" = s.
Proof.
  induction s as [|a s IH]; [reflexivity |].
  change (String a (s ++ "") = String a s). rewrite IH. reflexivity.
Qed.

Lemma contains_itself (s : string) : contains s s.
Proof. exists "", "". rewrite string_app_nil_r. reflexivity. Qed.

(** Whether the read of the log raises past [except OSError] can be
    read off the answers of the operating system. *)
Lemma log_read_raises_at_dec (os : OS) (env : Env) (h : list event) :
  (exists e, log_read_raises_at os env h e) \/
  (forall e, ~ log_read_raises_at os env h e).
Proof.
  unfold log_read_raises_at.
  destruct (ans_isfile os h (path_join (LOG_DIR env) "server.log")) eqn:Hfile.
  - destruct (ans_readlines os (h ++ [EvIsFile (path_join (LOG_DIR env) "server.log") true])
                            (path_join (LOG_DIR env) "server.log")) as [e|lines] eqn:Hlines.
    + destruct (isinstance_OSError e) eqn:Hos.
      * right. intros e' (_ & [= <-] & Hos'). congruence.
      * left. exists e. auto.
    + right. intros e' (_ & Hlines' & _). discriminate.
  - right. intros e' (Hfile' & _). discriminate.
Qed.

Section DiagnosticsTool.

Variable os : OS.
Variable env : Env.
Variable port : Z.
Variable json_dumps_indent2 : pyval -> string.

Lemma health_check_only_looks : emits only_looks (_health_check os port).
Proof.
  unfold _health_check, urlopen, resp_read. emits_auto.
Qed.

Lemma get_diagnostics_only_looks : emits only_looks (_get_diagnostics os port).
Proof.
  unfold _get_diagnostics, urlopen, resp_read. emits_auto.
Qed.

Lemma format_startup_failure_only_looks :
  emits only_looks (_format_startup_failure os env port).
Proof.
  unfold _format_startup_failure, _read_server_log_tail, os_path_isfile, open_readlines,
    oserr_to_exn.
  emits_auto.
Qed.

Lemma get_diagnostics_keeps_handles : keeps_handles (_get_diagnostics os port).
Proof.
  unfold _get_diagnostics, urlopen, resp_read. keeps_auto.
Qed.

(** X20: the diagnostics tool only looks.  Whatever it finds, its system
    calls are requests, reads of a body, and the test and the read of the
    server log: it starts no process, sends no signal, waits for nothing
    and never sleeps; and it leaves both process handles as they were. *)
Theorem buckaroo_diagnostics_only_looks :
  emits only_looks (buckaroo_diagnostics os env port json_dumps_indent2) /\
  keeps_handles (buckaroo_diagnostics os env port json_dumps_indent2).
Proof.
  unfold buckaroo_diagnostics. split.
  - pose proof health_check_only_looks. pose proof get_diagnostics_only_looks.
    pose proof format_startup_failure_only_looks.
    apply emits_bind; [emits_auto |]. intros _.
    apply emits_bind; [assumption |]. intros health.
    destruct (negb (truthy health)).
    + apply emits_bind; [assumption | intros msg; apply emits_ret].
    + apply emits_bind; [assumption |]. intros diag.
      destruct (negb (truthy diag)); [emits_auto |].
      do 6 (apply emits_bind; [apply emits_lift | intros ?]).
      match goal with |- emits _ (match ?x with _ => _ end) => destruct x end;
        apply emits_ret.
  - pose proof (health_check_keeps os port). pose proof get_diagnostics_keeps_handles.
    pose proof (format_startup_failure_keeps_handles os env port).
    apply keeps_bind; [apply keeps_log |]. intros _.
    apply keeps_bind; [assumption |]. intros health.
    destruct (negb (truthy health)).
    + apply keeps_bind; [assumption | intros msg; apply keeps_ret].
    + apply keeps_bind; [assumption |]. intros diag.
      destruct (negb (truthy diag)); [keeps_auto |].
      do 6 (apply keeps_bind; [apply keeps_lift | intros ?]).
      match goal with |- keeps_handles (match ?x with _ => _ end) => destruct x end;
        apply keeps_ret.
Qed.

(** X21: with no server answering, the diagnostics tool goes on with
    the startup diagnostics and does not ask for [/diagnostics].  Unless
    the server log cannot be decoded, it returns a text that opens with
    "Buckaroo server is NOT running." and names the server URL.  When
    reading the server log raises something that is no [OSError]
    ([UnicodeDecodeError], for bytes that are no text), the tool raises
    that exception instead. *)
Theorem buckaroo_diagnostics_reports_server_down (w w1 : World) (v : pyval) (version : string) :
  let server_log := path_join (LOG_DIR env) "server.log" in
  let called := record_log (mkLog INFO "buckaroo_diagnostics called" []) w in
  split_first (sys_version env) = inr version ->
  _health_check os port called = (Returned v, w1) ->
  truthy v = false ->
  (exists msg w2 tail,
     (forall e, ~ log_read_raises_at os env (history w1) e) /\
     buckaroo_diagnostics os env port json_dumps_indent2 w =
       (Returned ("Buckaroo server is NOT running." ++ nl ++ nl ++ msg), w2) /\
     contains (SERVER_URL port) msg /\
     history w2 = (history w1 ++ tail)%list /\
     log_tail_events env tail) \/
  (exists e w2,
     log_read_raises_at os env (history w1) e /\
     buckaroo_diagnostics os env port json_dumps_indent2 w = (Raised e, w2) /\
     history w2 =
       (history w1 ++ [EvIsFile server_log true; EvReadLines server_log (inl e)])%list).
Proof.
  intros server_log called Hversion Hprobe Hfalse.
  assert (Hstart : forall o w2,
            _format_startup_failure os env port w1 = (o, w2) ->
            buckaroo_diagnostics os env port json_dumps_indent2 w =
              bind (fun _ => (o, w2))
                   (fun msg => ret ("Buckaroo server is NOT running." ++ nl ++ nl ++ msg)) w1).
  { intros o w2 Hmsg.
    unfold buckaroo_diagnostics. unfold bind at 1, log. fold called.
    unfold bind at 1. rewrite Hprobe, Hfalse. cbn [negb].
    unfold bind. rewrite Hmsg. reflexivity. }
  destruct (log_read_raises_at_dec os env (history w1)) as [(e & Hraises) | Hsafe].
  - right.
    pose proof (read_server_log_tail_raises os env 20 w1 e Hraises) as Htail.
    apply (format_startup_failure_raises os env port) in Htail.
    exists e. eexists. split; [exact Hraises |].
    split; [exact (Hstart _ _ Htail) |].
    cbn [history record_event]. rewrite <- app_assoc. reflexivity.
  - left.
    destruct (format_startup_failure_names_url os env port version w1 Hversion Hsafe)
      as (msg & w2 & tail & Hmsg & Hhist & Htail & Hurl).
    exists msg, w2, tail.
    split; [exact Hsafe |]. split; [exact (Hstart _ _ Hmsg) |]. auto.
Qed.

(** X22: with a server that answers the health probe but not
    [/diagnostics] (an older version), the tool does not fail either: it
    returns a text with the pid of the health report and the report
    itself. *)
Theorem buckaroo_diagnostics_reports_older_server (w w1 w2 : World)
    (report : list (string * pyval)) (diag : pyval) :
  let called := record_log (mkLog INFO "buckaroo_diagnostics called" []) w in
  _health_check os port called = (Returned (PyDict report), w1) ->
  report <> [] ->
  _get_diagnostics os port w1 = (Returned diag, w2) ->
  truthy diag = false ->
  exists server_pid text,
    py_get (PyDict report) "pid" PyNone = inr server_pid /\
    buckaroo_diagnostics os env port json_dumps_indent2 w = (Returned text, w2) /\
    contains (py_str env server_pid) text /\
    contains "Server may be an older version." text /\
    contains (json_dumps_indent2 (PyDict report)) text.
Proof.
  intros called Hprobe Hne Hdiag Hfalse.
  assert (Htruthy : truthy (PyDict report) = true) by (destruct report; [congruence | reflexivity]).
  destruct (py_get (PyDict report) "pid" PyNone) as [e|server_pid] eqn:Hpid; [discriminate |].
  exists server_pid. eexists. split; [reflexivity |]. split.
  - unfold buckaroo_diagnostics. unfold bind at 1, log. fold called.
    unfold bind at 1. rewrite Hprobe, Htruthy. cbn [negb].
    unfold bind at 1. rewrite Hdiag, Hfalse. cbn [negb].
    unfold bind at 1. rewrite Hpid. cbn [lift ret]. reflexivity.
  - split; [| split].
    + do 1 apply contains_later. apply contains_here.
    + do 3 apply contains_later. eexists "endpoint unavailable. ", _. reflexivity.
    + do 7 apply contains_later. apply contains_itself.
Qed.

End DiagnosticsTool.

(** On the machine of [os_down] the log can be read. *)
Lemma buckaroo_diagnostics_reports_server_down_witness :
  let called :=
    record_log (mkLog INFO "buckaroo_diagnostics called" []) (imported_world env_1_2_0 8700) in
  let w1 := snd (_health_check os_down 8700 called) in
  exists msg w2 tail,
    buckaroo_diagnostics os_down env_1_2_0 8700 dumps_placeholder (imported_world env_1_2_0 8700)
      = (Returned ("Buckaroo server is NOT running." ++ nl ++ nl ++ msg), w2) /\
    contains (SERVER_URL 8700) msg /\
    history w2 = (history w1 ++ tail)%list /\
    log_tail_events env_1_2_0 tail.
Proof.
  intros called w1.
  destruct (buckaroo_diagnostics_reports_server_down os_down env_1_2_0 8700 dumps_placeholder
              (imported_world env_1_2_0 8700) _ PyNone "3.12.3" eq_refl eq_refl eq_refl)
    as [(msg & w2 & tail & _ & H) | (e & w2 & (_ & Hlines & _) & _)].
  - exists msg, w2, tail. exact H.
  - discriminate Hlines.
Defined.

Lemma buckaroo_diagnostics_reports_older_server_witness :
  exists server_pid text w2,
    py_get report_501 "pid" PyNone = inr server_pid /\
    buckaroo_diagnostics os_no_diagnostics env_1_2_0 8700 dumps_placeholder
      (imported_world env_1_2_0 8700) = (Returned text, w2) /\
    contains (py_str env_1_2_0 server_pid) text /\
    contains "Server may be an older version." text /\
    contains (dumps_placeholder report_501) text.
Proof.
  assert (Hne : [("status", PyStr "ok"); ("pid", PyInt 501); ("version", PyStr "1.2.0")] <> [])
    by discriminate.
  destruct (buckaroo_diagnostics_reports_older_server os_no_diagnostics env_1_2_0 8700
              dumps_placeholder (imported_world env_1_2_0 8700) _ _ _ PyNone
              eq_refl Hne eq_refl eq_refl)
    as (server_pid & text & H).
  exists server_pid, text. eexists. exact H.
Defined.

(** ** The two checks of the static files *)

(** X23: the startup check of [ensure_server] and the diagnostics tool
    agree on the static files.  On the same [static_files] items either
    both raise, and the same exception, or both go through, and then the
    diagnostics tool writes one warning line, MISSING or EMPTY, for each
    file that the startup check lists, in the same order, and for no
    other. *)
Theorem diagnostics_warnings_match_startup_check (items : list (string * pyval)) :
  match missing_static items, diagnostics_warnings items with
  | inr names, inr warnings => Forall2 warns_about names warnings
  | inl e, inl e' => e = e'
  | _, _ => False
  end.
Proof.
  induction items as [|[name info] rest IH]; cbn.
  - constructor.
  - destruct (py_get info "exists" PyNone) as [e|present]; cbn; [reflexivity |].
    destruct (truthy present); cbn.
    + destruct (py_get info "size_bytes" (PyInt 0)) as [e|size]; cbn; [reflexivity |].
      destruct (py_eq_int size 0);
        destruct (missing_static rest) as [e|names], (diagnostics_warnings rest) as [e'|warnings];
        cbn; try assumption.
      constructor; [right; reflexivity | assumption].
    + destruct (missing_static rest) as [e|names], (diagnostics_warnings rest) as [e'|warnings];
        cbn; try assumption.
      constructor; [left; reflexivity | assumption].
Qed.
